(** * Power BI export plugin: a shallow embedding and its properties

    The development embeds the two Python modules of the plugin,

    - [python-lib/powerbi.py] (module [PowerBI] below): the REST client, and
    - [python-exporters/python-with-credentials/exporter.py] (module
      [Exporter]): the DSS exporter with its row buffer,

    as Rocq functions over an explicit machine state, and proves the
    properties of the specification against them.

    Modelling conventions.
    - Python values that travel as JSON are terms of [json]; a parsed JSON
      object is an association list read with first-match lookup.
    - A pandas cell is a [cell]: a JSON value or a temporal object.
    - A flat Python [dict] keyed by column names is a [gmap string _].
    - [str.format] is kept symbolic: a [text] is a template with its
      arguments, so that no rendering of Python values has to be invented.
    - The network is an oracle [net : nat -> response]: the [k]-th HTTP call
      of a run is answered by [net k]. Every request is appended to the
      machine's call log, every printed line to its standard output.
    - A Python exception is the [Raise] outcome; it carries the machine at
      the point of the raise. *)

From Stdlib Require Import ZArith String Ascii List DecimalString.
From Stdlib Require Import Floats.SpecFloat.
From stdpp Require Import gmap strings list.

Open Scope string_scope.
Open Scope list_scope.
Open Scope Z_scope.

(** ** Python values *)

#[warnings="-register-all"]
Inductive json : Type :=
| JNull
| JBool (b : bool)
| JInt (z : Z)
| JFloat (f : spec_float)
| JStr (s : string)
| JArr (l : list json)
| JObj (o : list (string * json)).

(** A naive pandas/datetime timestamp, and the objects that answer
    [isoformat()]. *)
Record datetime : Type := {
  year : nat; month : nat; day : nat;
  hour : nat; minute : nat; second : nat;
  microsecond : nat
}.

Inductive temporal : Type :=
| Timestamp (d : datetime)
| NaT.

Inductive cell : Type :=
| CVal (j : json)
| CTime (t : temporal).

(** Symbolic [str.format]: [Fmt tpl args] stands for [tpl.format( *args )],
    [Lit s] for a plain string and [Cat] for [+]. *)
#[warnings="-register-all"]
Inductive text : Type :=
| Lit (s : string)
| Fmt (template : string) (args : list fmtarg)
| Cat (a b : text)
with fmtarg : Type :=
| AVal (c : cell)
| ASub (t : text).

Definition AJson (j : json) : fmtarg := AVal (CVal j).
Definition AStr (s : string) : fmtarg := AVal (CVal (JStr s)).
Definition AInt (z : Z) : fmtarg := AVal (CVal (JInt z)).

Inductive exn : Type :=
| Exception (msg : text)
| SystemExit (msg : string)
| AttributeError
| KeyError (key : string)
| TypeError
| ValueError
| OverflowError.

(** ** Pure computations that may raise *)

Inductive result (A : Type) : Type :=
| Val (a : A)
| Err (e : exn).
Arguments Val {A} a.
Arguments Err {A} e.

Definition rbind {A B} (r : result A) (k : A -> result B) : result B :=
  match r with
  | Val a => k a
  | Err e => Err e
  end.

Notation "x <-? r ;; k" := (rbind r (fun x => k))
  (at level 100, r at next level, right associativity).

(** [str(n)] for a Python integer. *)
Definition str_int (n : Z) : string := NilZero.string_of_int (Z.to_int n).

(** [s.startswith(p)]. *)
Definition startswith (s p : string) : bool := String.prefix p s.

(** [hay.find(needle) >= 0]. *)
Definition contains (hay needle : string) : bool :=
  match String.index 0 needle hay with
  | Some _ => true
  | None => false
  end.

Definition lower_ascii (c : ascii) : ascii :=
  let n := nat_of_ascii c in
  if ((65 <=? n)%nat && (n <=? 90)%nat)%bool then ascii_of_nat (n + 32) else c.

(** [s.lower()]: the letters A to Z are mapped to a to z, every other
    character is kept. *)
Fixpoint lower (s : string) : string :=
  match s with
  | EmptyString => EmptyString
  | String c s' => String (lower_ascii c) (lower s')
  end.

(** First-match lookup in a parsed JSON object. *)
Fixpoint assoc (k : string) (o : list (string * json)) : option json :=
  match o with
  | [] => None
  | (k', v) :: o' => if String.eqb k' k then Some v else assoc k o'
  end.

(** [d.get(key, default)]: only a dict has the method. *)
Definition py_get (d : json) (key : string) (default : json) : result json :=
  match d with
  | JObj o => Val (match assoc key o with Some v => v | None => default end)
  | _ => Err AttributeError
  end.

(** [d[key]] for a string key: [KeyError] on a dict without it,
    [TypeError] on every other JSON value. *)
Definition py_getitem (d : json) (key : string) : result json :=
  match d with
  | JObj o => match assoc key o with
              | Some v => Val v
              | None => Err (KeyError key)
              end
  | _ => Err TypeError
  end.

Definition float_is_zero (f : spec_float) : bool :=
  match f with S754_zero _ => true | _ => false end.

(** Truth value of a Python object, as [if x:] takes it. *)
Definition truthy (j : json) : bool :=
  match j with
  | JNull => false
  | JBool b => b
  | JInt z => negb (z =? 0)
  | JFloat f => negb (float_is_zero f)
  | JStr s => negb (String.eqb s EmptyString)
  | JArr l => match l with [] => false | _ => true end
  | JObj o => match o with [] => false | _ => true end
  end.

Fixpoint chars (s : string) : list json :=
  match s with
  | EmptyString => []
  | String c s' => JStr (String c EmptyString) :: chars s'
  end.

(** [for x in j]: lists yield their items, dicts their keys, strings their
    characters; the other values are not iterable. *)
Definition py_iter (j : json) : result (list json) :=
  match j with
  | JArr l => Val l
  | JObj o => Val (map (fun kv => JStr (fst kv)) o)
  | JStr s => Val (chars s)
  | _ => Err TypeError
  end.

(** [key in j] for a string key. On a string it is the substring test, on a
    list a membership test against a string, which only an equal string
    element satisfies; numbers, booleans and [None] are not containers. *)
Definition py_in (key : string) (j : json) : result bool :=
  match j with
  | JObj o => Val (match assoc key o with Some _ => true | None => false end)
  | JStr s => Val (contains s key)
  | JArr l => Val (existsb (fun x => match x with
                                     | JStr s => String.eqb s key
                                     | _ => false
                                     end) l)
  | _ => Err TypeError
  end.

(** [j == name] where [name] is a configured string or [None]. *)
Definition eq_name (j : json) (name : option string) : bool :=
  match j, name with
  | JStr s, Some n => String.eqb s n
  | JNull, None => true
  | _, _ => false
  end.

(** ** Requests, responses and the machine *)

Inductive verb : Type := GET | POST | DELETE.

Inductive payload : Type :=
| NoData
| Doc (j : json)                       (* [json.dumps] of a document *)
| Rows (rs : list (gmap string json)). (* [json.dumps] of a list of row dicts *)

Record request : Type := {
  method : verb;
  url : text;
  data : payload
}.

(** What the client reads of a response: [json_body] is the outcome of
    [response.json()], [None] when the body does not parse. *)
Record response : Type := {
  status_code : Z;
  content : string;
  json_body : option json;
  content_type : option string
}.

Inductive level : Type := INFO | ERROR.

Record machine : Type := {
  calls : list request;
  stdout : list text;
  logs : list (level * text)
}.

Definition boot : machine := {| calls := []; stdout := []; logs := [] |}.

Inductive outcome (A : Type) : Type :=
| Ok (a : A) (m : machine)
| Raise (e : exn) (m : machine).
Arguments Ok {A} a m.
Arguments Raise {A} e m.

Definition M (A : Type) : Type := machine -> outcome A.

Definition ret {A} (a : A) : M A := fun m => Ok a m.

Definition bind {A B} (c : M A) (k : A -> M B) : M B :=
  fun m => match c m with
           | Ok a m' => k a m'
           | Raise e m' => Raise e m'
           end.

Definition raise {A} (e : exn) : M A := fun m => Raise e m.

Definition lift {A} (r : result A) : M A :=
  match r with
  | Val a => ret a
  | Err e => raise e
  end.

Notation "x <- c ;; k" := (bind c (fun x => k))
  (at level 100, c at next level, right associativity).
Notation "c ;;; k" := (bind c (fun _ => k))
  (at level 100, right associativity).

(** [print line]. *)
Definition print (line : text) : M unit :=
  fun m => Ok tt {| calls := calls m; stdout := stdout m ++ [line]; logs := logs m |}.

(** [logger.info] / [logger.error]. *)
Definition log (l : level) (msg : text) : M unit :=
  fun m => Ok tt {| calls := calls m; stdout := stdout m; logs := logs m ++ [(l, msg)] |}.

(** [for x in xs: body x]. *)
Fixpoint for_each {A} (xs : list A) (body : A -> M unit) : M unit :=
  match xs with
  | [] => ret tt
  | x :: xs' => body x ;;; for_each xs' body
  end.

(** [response.json()]. *)
Definition response_json (r : response) : result json :=
  match json_body r with
  | Some j => Val j
  | None => Err ValueError
  end.

(** [requests.get/post/delete]: the request is logged and answered by the
    oracle at the index of the call. *)
Definition send (net : nat -> response) (v : verb) (u : text) (d : payload)
  : M response :=
  fun m =>
    Ok (net (length (calls m)))
       {| calls := calls m ++ [{| method := v; url := u; data := d |}];
          stdout := stdout m;
          logs := logs m |}.

(** ** Dates *)

Definition digits (n : nat) : string := NilZero.string_of_uint (Nat.to_uint n).

Fixpoint zeros (k : nat) : string :=
  match k with
  | O => EmptyString
  | S k' => String "0" (zeros k')
  end.

(** [str(n).zfill(w)], the ["%0wd"] of a non-negative number. *)
Definition zfill (w : nat) (s : string) : string :=
  zeros (w - String.length s) +:+ s.

(** [datetime.isoformat()] of a naive timestamp. *)
Definition isoformat_datetime (d : datetime) : string :=
  zfill 4 (digits (year d)) +:+ "-" +:+ zfill 2 (digits (month d)) +:+ "-"
  +:+ zfill 2 (digits (day d)) +:+ "T" +:+ zfill 2 (digits (hour d)) +:+ ":"
  +:+ zfill 2 (digits (minute d)) +:+ ":" +:+ zfill 2 (digits (second d))
  +:+ (if Nat.eqb (microsecond d) 0 then EmptyString
       else "." +:+ zfill 6 (digits (microsecond d))).

Definition isoformat (t : temporal) : string :=
  match t with
  | Timestamp d => isoformat_datetime d
  | NaT => "NaT"
  end.

(** * The REST client, [python-lib/powerbi.py] *)

Module PowerBI.

Definition GROUPS_API : string := "https://api.powerbi.com/v1.0/myorg/groups".
Definition DATASETS_API : string := "https://api.powerbi.com/v1.0/myorg/datasets".
Definition GROUP_DATASETS_API : string :=
  "https://api.powerbi.com/v1.0/myorg/groups/{group_id}/datasets".
Definition TABLE_ROWS_API : string := "{}/{}/tables/{}/rows".
Definition DEFAULT_PBI_TABLE : string := "dss-data".

(** Data types mapping DSS => Power BI. *)
Definition fieldSetterMap : gmap string string :=
  list_to_map
    [ ("boolean", "Boolean");
      ("tinyint", "Int64");
      ("smallint", "Int64");
      ("int", "Int64");
      ("bigint", "Int64");
      ("float", "Double");
      ("double", "Double");
      ("date", "dateTime");
      ("string", "String");
      ("array", "String");
      ("map", "String");
      ("object", "String") ].

(** A column of the DSS schema, [schema["columns"][i]]. *)
Record column : Type := { col_name : string; col_type : string }.

(** What [self.post] and [self._delete] hand back: the parsed body of a JSON
    response, the response object otherwise. *)
Inductive reply : Type :=
| ReplyJson (j : json)
| ReplyRaw (r : response).

(** ** Module-level helpers *)

(** [date_convertion]: a value without [isoformat] raises [AttributeError]. *)
Definition date_convertion (pandas_date : cell) : result json :=
  match pandas_date with
  | CTime t =>
      let ret := isoformat t in
      if String.eqb ret "NaT" then Val JNull else Val (JStr ret)
  | CVal _ => Err AttributeError
  end.

(** The first integer magnitude that [float()] refuses. *)
Definition float_overflow : Z := 2 ^ 1024 - 2 ^ 970.

(** [math.isnan(x)]: defined on floats, and on integers and booleans through
    their conversion to float; a [TypeError] elsewhere. *)
Definition math_isnan (x : cell) : result bool :=
  match x with
  | CVal (JFloat f) => Val (match f with S754_nan => true | _ => false end)
  | CVal (JBool _) => Val false
  | CVal (JInt z) =>
      if Z.abs z <? float_overflow then Val false else Err OverflowError
  | _ => Err TypeError
  end.

Definition boolean_check (pandas_boolean : cell) : result cell :=
  nan <-? math_isnan pandas_boolean ;;
  if nan then Val (CVal JNull) else Val pandas_boolean.

Definition is_json_response (r : response) : result bool :=
  match content_type r with
  | Some ct => Val (contains ct "application/json")
  | None => Err AttributeError
  end.

Fixpoint get_value_from_path (dictionary : json) (path : list string)
    (default_reply : json) : result json :=
  match path with
  | [] => Val dictionary
  | key :: path' =>
      present <-? py_in key dictionary ;;
      if present then
        next <-? py_get dictionary key JNull ;;
        get_value_from_path next path' default_reply
      else Val default_reply
  end.

(** The raw body stands in the message as the string it is. *)
Definition extract_error_message_from_response (r : response) : json :=
  match (json_response <-? response_json r ;;
         get_value_from_path json_response ["error"; "message"] (JStr (content r)))
  with
  | Val ret => ret
  | Err _ => JStr (content r)
  end.

(** [custom_error_messages or {}] is the dict or the empty one; a status
    code that is a key of it makes the dict non-empty, so the test
    [custom_error_messages and (status_code in custom_error_messages)] is the
    lookup. *)
Definition get_error_message (r : response) (while_trying : option text)
    (custom_error_messages : option (gmap Z string)) : text :=
  let custom : gmap Z string := default ∅ custom_error_messages in
  match custom !! status_code r with
  | Some msg => Lit msg
  | None =>
      match while_trying with
      | None =>
          let response_message := extract_error_message_from_response r in
          Fmt "Error {}: {}" [AInt (status_code r); AJson response_message]
      | Some what =>
          Fmt "Error {} while {}: {}"
              [AInt (status_code r); ASub what; AStr (content r)]
      end
  end.

Definition handle_exception_message (message : text) (fail_on_errors : bool)
  : M unit :=
  if fail_on_errors then raise (Exception message) else log ERROR message.

Definition assert_response_ok (r : response) (while_trying : option text)
    (fail_on_errors : bool) (custom_error_messages : option (gmap Z string))
  : M unit :=
  if status_code r >=? 400 then
    handle_exception_message
      (get_error_message r while_trying custom_error_messages) fail_on_errors
  else ret tt.

(** ** The class [PowerBI] *)

Section Client.

Variable net : nat -> response.

Definition get_datasets_base_url (pbi_group_id : option json) : text :=
  match pbi_group_id with
  | None => Lit DATASETS_API
  | Some g => Fmt GROUP_DATASETS_API [AJson g]
  end.

(** No status check here: the response is handed back as it came. *)
Definition get_datasets (pbi_group_id : option json) : M response :=
  send net GET (get_datasets_base_url pbi_group_id) NoData.

(** The loop of [get_dataset_by_name]. *)
Fixpoint matching_ids (name : option string) (datasets : list json)
  : result (list json) :=
  match datasets with
  | [] => Val []
  | dataset :: rest =>
      n <-? py_getitem dataset "name" ;;
      if eq_name n name then
        i <-? py_getitem dataset "id" ;;
        ret <-? matching_ids name rest ;;
        Val (i :: ret)
      else matching_ids name rest
  end.

Definition get_dataset_by_name (name : option string)
    (pbi_group_id : option json) : M (list json) :=
  data <- get_datasets pbi_group_id ;;
  body <- lift (response_json data) ;;
  datasets <- lift (py_get body "value" JNull) ;;
  if truthy datasets then
    items <- lift (py_iter datasets) ;;
    lift (matching_ids name items)
  else ret [].

Definition delete_dataset (dsid : json) (pbi_group_id : option json)
  : M response :=
  let endpoint :=
    Fmt "{}/{}" [ASub (get_datasets_base_url pbi_group_id); AJson dsid] in
  r <- send net DELETE endpoint NoData ;;
  assert_response_ok r (Some (Fmt "deleting {}" [AJson dsid])) true None ;;;
  log INFO (Fmt "[+] Deleted existing Power BI dataset {} (response code: {})..."
                [AJson dsid; AInt (status_code r)]) ;;;
  ret r.

Definition get (u : text) (custom_error_messages : option (gmap Z string))
  : M json :=
  r <- send net GET u NoData ;;
  assert_response_ok r None true custom_error_messages ;;;
  lift (response_json r).

Definition answer (r : response) : M reply :=
  is_json <- lift (is_json_response r) ;;
  if is_json then
    j <- lift (response_json r) ;;
    ret (ReplyJson j)
  else ret (ReplyRaw r).

Definition post (u : text) (d : payload) (fail_on_errors : bool) : M reply :=
  r <- send net POST u d ;;
  assert_response_ok r None fail_on_errors None ;;;
  answer r.

Definition _delete (u : text) (fail_on_errors : bool) : M reply :=
  r <- send net DELETE u NoData ;;
  assert_response_ok r None fail_on_errors None ;;;
  answer r.

Definition table_rows_url (pbi_group_id : option json) (dsid : json)
    (pbi_table : string) : text :=
  Fmt TABLE_ROWS_API
      [ASub (get_datasets_base_url pbi_group_id); AJson dsid; AStr pbi_table].

Definition empty_dataset (dsid : json) (pbi_table : string)
    (pbi_group_id : option json) : M reply :=
  _delete (table_rows_url pbi_group_id dsid pbi_table) false.

Definition new_column (c : column) : json :=
  JObj [ ("name", JStr (col_name c));
         ("dataType", JStr (default "String" (fieldSetterMap !! col_type c))) ].

Definition dataset_payload (pbi_dataset : option string) (pbi_table : string)
    (schema : list column) : json :=
  JObj [ ("name", match pbi_dataset with Some n => JStr n | None => JNull end);
         ("defaultMode", JStr "PushStreaming");
         ("tables", JArr [ JObj [ ("name", JStr pbi_table);
                                  ("columns", JArr (map new_column schema)) ] ]) ].

Definition create_dataset_from_schema (pbi_dataset : option string)
    (pbi_table : string) (pbi_group_id : option json) (schema : list column)
  : M reply :=
  post (get_datasets_base_url pbi_group_id)
       (Doc (dataset_payload pbi_dataset pbi_table schema)) true.

(** The loop of [filter_group_by_name]. *)
Fixpoint first_group (groups : list json) (lowercase_workspace_name : string)
  : result json :=
  match groups with
  | [] => Val (JObj [])
  | group :: rest =>
      n <-? py_get group "name" (JStr EmptyString) ;;
      match n with
      | JStr s =>
          if String.eqb (lower s) lowercase_workspace_name then Val group
          else first_group rest lowercase_workspace_name
      | _ => Err AttributeError
      end
  end.

Definition filter_group_by_name (groups : json) (pbi_workspace : string)
  : result json :=
  items <-? py_iter groups ;;
  first_group items (lower pbi_workspace).

Definition dquote : string := String "034"%char EmptyString.

Definition workspace_missing (pbi_workspace : string) : text :=
  Fmt ("The workspace named " +:+ dquote +:+ "{workspace}" +:+ dquote
       +:+ " does not exists on your Power BI account, or you do not have access to it")
      [AStr pbi_workspace].

Definition get_group_id_by_name (pbi_workspace : option string)
  : M (option json) :=
  match pbi_workspace with
  | None => ret None
  | Some ws =>
      if String.eqb ws "My workspace" then ret None
      else
        json_response <-
          get (Lit GROUPS_API)
              (Some {[ 401 := "No access to groups/workspaces lists. Please check your access rights." ]}) ;;
        groups <- lift (py_get json_response "value" (JArr [])) ;;
        group <- lift (filter_group_by_name groups ws) ;;
        group_id <- lift (py_get group "id" JNull) ;;
        match group_id with
        | JNull => raise (Exception (workspace_missing ws))
        | _ => ret (Some group_id)
        end
  end.

(** *** Formattable columns *)

Inductive encoder : Type :=
| json_dumps                 (* [self.json_filter = json.dumps] *)
| formattable_values.        (* [self.json_filter = self.parse_formattable_values] *)

(** The attributes [register_formattable_columns] sets on the client. *)
Record formatter : Type := {
  columns_with_date : list string;
  columns_with_boolean : list string;
  json_filter : encoder
}.

Definition register_formattable_columns (schema : list column) : formatter :=
  let dates :=
    map col_name (List.filter (fun c => String.eqb (col_type c) "date") schema) in
  let booleans :=
    map col_name (List.filter (fun c => String.eqb (col_type c) "boolean") schema) in
  {| columns_with_date := dates;
     columns_with_boolean := booleans;
     json_filter :=
       if ((0 <? length dates)%nat || (0 <? length booleans)%nat)%bool
       then formattable_values else json_dumps |}.

Definition dumps_cell (c : cell) : option json :=
  match c with
  | CVal j => Some j
  | CTime _ => None
  end.

(** [json.dumps] of the rows: a temporal object is not serializable. *)
Definition dumps_row (row : gmap string cell) : result (gmap string json) :=
  if bool_decide (map_Forall (fun _ c => is_Some (dumps_cell c)) row)
  then Val (omap dumps_cell row)
  else Err TypeError.

Fixpoint dumps (rows : list (gmap string cell))
  : result (list (gmap string json)) :=
  match rows with
  | [] => Val []
  | row :: rest =>
      r <-? dumps_row row ;;
      rs <-? dumps rest ;;
      Val (r :: rs)
  end.

Definition bad_date (date_to_convert : cell) : exn :=
  Exception (Fmt "Date '{}' is not correctly formatted" [AVal date_to_convert]).

(** The inner loop over [self.columns_with_date]. Within the [try] block
    only [date_convertion] can raise [AttributeError], on the value just
    bound to [date_to_convert]; the handler of [parse_formattable_values] is
    therefore applied at that call. *)
Fixpoint convert_dates (cols : list string) (row : gmap string cell)
  : result (gmap string cell) :=
  match cols with
  | [] => Val row
  | column_with_date :: cols' =>
      match row !! column_with_date with
      | None => Err (KeyError column_with_date)
      | Some date_to_convert =>
          match date_convertion date_to_convert with
          | Val v => convert_dates cols' (<[column_with_date := CVal v]> row)
          | Err AttributeError => Err (bad_date date_to_convert)
          | Err e => Err e
          end
      end
  end.

(** The inner loop over [self.columns_with_boolean]. *)
Fixpoint convert_booleans (cols : list string) (row : gmap string cell)
  : result (gmap string cell) :=
  match cols with
  | [] => Val row
  | column_with_boolean :: cols' =>
      match row !! column_with_boolean with
      | None => Err (KeyError column_with_boolean)
      | Some boolean_to_check =>
          v <-? boolean_check boolean_to_check ;;
          convert_booleans cols' (<[column_with_boolean := v]> row)
      end
  end.

Definition convert_row (f : formatter) (row : gmap string cell)
  : result (gmap string cell) :=
  r <-? convert_dates (columns_with_date f) row ;;
  convert_booleans (columns_with_boolean f) r.

Fixpoint convert_rows (f : formatter) (rows : list (gmap string cell))
  : result (list (gmap string cell)) :=
  match rows with
  | [] => Val []
  | row :: rest =>
      r <-? convert_row f row ;;
      ret <-? convert_rows f rest ;;
      Val (r :: ret)
  end.

Definition parse_formattable_values (f : formatter)
    (rows : list (gmap string cell)) : result (list (gmap string json)) :=
  ret <-? convert_rows f rows ;;
  dumps ret.

Definition post_table_row (f : formatter) (rows : list (gmap string cell))
    (dsid : json) (pbi_table : string) (pbi_group_id : option json)
  : M reply :=
  new_data <- lift (match json_filter f with
                    | json_dumps => dumps rows
                    | formattable_values => parse_formattable_values f rows
                    end) ;;
  post (table_rows_url pbi_group_id dsid pbi_table) (Rows new_data) true.

(** *** The token exchange *)

Definition TOKEN_API : string :=
  "https://login.microsoftonline.com/common/oauth2/token".

Definition or_none (o : option string) : json :=
  match o with
  | Some s => JStr s
  | None => JNull
  end.

(** The dict [data] of [generate_access_token]. It is handed to [requests]
    as a dict, which sends it form-encoded; the request keeps it as the
    document it is. *)
Definition token_form (username password client_id client_secret : option string)
  : json :=
  JObj [ ("username", or_none username);
         ("password", or_none password);
         ("client_id", or_none client_id);
         ("client_secret", or_none client_secret);
         ("resource", JStr "https://analysis.windows.net/powerbi/api");
         ("grant_type", JStr "password");
         ("scope", JStr "openid") ].

Definition generate_access_token
    (username password client_id client_secret : option string) : M json :=
  r <- send net POST (Lit TOKEN_API)
         (Doc (token_form username password client_id client_secret)) ;;
  assert_response_ok r (Some (Lit "retrieving access token")) true None ;;;
  lift (response_json r).

End Client.

End PowerBI.

(** * The exporter, [python-exporters/python-with-credentials/exporter.py] *)

Module Exporter.

Import PowerBI.

(** The plugin settings [__init__] reads from the configuration:
    [overwrite] by its truth value, [buffer_size] as the integer it is. *)
Record settings : Type := {
  pbi_dataset : option string;
  pbi_overwrite : bool;
  pbi_buffer_size : Z
}.

(** [self.pbi_table]. *)
Definition pbi_table : string := "dss-data".

(** The exporter once [open] has returned: [schema] and [dsid] exist from
    then on, [row_index] and [row_buffer] start as [__init__] leaves them. *)
Record exporter : Type := {
  config : settings;
  schema : list column;
  dsid : json;
  row_index : Z;
  row_buffer : list (gmap string json)
}.

Section Job.

Variable net : nat -> response.

(** [response.get("id")] on what [create_dataset_from_schema] returned: a
    [requests] response object has no [get]. *)
Definition reply_get (r : reply) (key : string) : result json :=
  match r with
  | ReplyJson j => py_get j key JNull
  | ReplyRaw _ => Err AttributeError
  end.

Definition reply_dump (r : reply) : fmtarg :=
  match r with
  | ReplyJson j => AJson j
  | ReplyRaw r => AStr (content r)
  end.

Definition open (cfg : settings) (sch : list column) : M exporter :=
  if pbi_overwrite cfg then
    print (Lit "[+] Looking for Power BI datasets with similar names...") ;;;
    datasets <- get_dataset_by_name net (pbi_dataset cfg) None ;;
    for_each datasets
      (fun dataset => delete_dataset net dataset None ;;; ret tt) ;;;
    r <- create_dataset_from_schema net (pbi_dataset cfg) pbi_table None sch ;;
    id <- lift (reply_get r "id") ;;
    match id with
    | JNull =>
        print (Lit "ERROR [-] Error while creating your Power BI dataset.") ;;;
        print (Lit "ERROR [-] Azure response:") ;;;
        print (Fmt "{}" [reply_dump r]) ;;;
        raise (SystemExit "Dataset creation error")
    | _ =>
        print (Fmt "[+] Created Power BI dataset ID {}" [AJson id]) ;;;
        ret {| config := cfg; schema := sch; dsid := id;
               row_index := 0; row_buffer := [] |}
    end
  else
    datasets <- get_dataset_by_name net (pbi_dataset cfg) None ;;
    match datasets with
    | first :: _ =>
        print (Fmt "[+] Existing datasets: {}" [AJson (JArr datasets)]) ;;;
        print (Fmt "[+] Will use Power BI dataset ID {}" [AJson first]) ;;;
        ret {| config := cfg; schema := sch; dsid := first;
               row_index := 0; row_buffer := [] |}
    | [] =>
        print (Fmt "ERROR [-] No existing dataset with name {}"
                   [AJson (match pbi_dataset cfg with
                           | Some n => JStr n
                           | None => JNull
                           end)]) ;;;
        print (Lit "ERROR [-] Check 'Overwrite' to create a new one") ;;;
        raise (SystemExit "Dataset creation error")
    end.

(** The dict built from [zip(self.schema["columns"], row)]. *)
Definition row_object (sch : list column) (row : list json) : gmap string json :=
  fold_left (fun row_obj cv => <[col_name (fst cv) := snd cv]> row_obj)
            (combine sch row) ∅.

Definition rows_endpoint (id : json) : text :=
  Fmt "https://api.powerbi.com/v1.0/myorg/datasets/{}/tables/{}/rows"
      [AJson id; AStr pbi_table].

(** [str(response.status_code).startswith('2')]. *)
Definition is_2xx (r : response) : bool :=
  startswith (str_int (status_code r)) "2".

Definition inserted_report (records status : Z) : text :=
  Fmt "[+] Inserted {} records (response code: {})" [AInt records; AInt status].

Definition issue_report (status : Z) : text :=
  Fmt "[-] Response code {} may indicate an issue while loading your records."
      [AInt status].

Definition api_response_report (body : json) : text :=
  Fmt "[-] API response: {}" [AJson body].

(** The insertion block that [write_row] and [close] both contain: the POST
    of the buffered rows and the report on standard output. *)
Definition flush (e : exporter) (rows : list (gmap string json)) : M unit :=
  r <- send net POST (rows_endpoint (dsid e)) (Rows rows) ;;
  print (inserted_report (Z.of_nat (length rows)) (status_code r)) ;;;
  if negb (is_2xx r) then
    print (issue_report (status_code r)) ;;;
    body <- lift (response_json r) ;;
    print (api_response_report body)
  else ret tt.

Definition write_row (e : exporter) (row : list json) : M exporter :=
  let rows := row_buffer e ++ [row_object (schema e) row] in
  kept <- (if Z.of_nat (length rows) >? pbi_buffer_size (config e)
           then flush e rows ;;; ret []
           else ret rows) ;;
  ret {| config := config e; schema := schema e; dsid := dsid e;
         row_index := row_index e + 1; row_buffer := kept |}.

Fixpoint equals (k : nat) : string :=
  match k with
  | O => EmptyString
  | S k' => String "="%char (equals k')
  end.

Definition newline : text := Lit (String "010"%char EmptyString).

(** The closing message, built line by line as in [close]. *)
Definition summary (id : json) : text :=
  let msg := Lit EmptyString in
  let msg := Cat (Cat msg (Fmt "[+] {}" [AStr (equals 80)])) newline in
  let msg :=
    Cat (Cat msg (Lit "[+] Your Power BI dataset should be available at:"))
        newline in
  let msg :=
    Cat (Cat msg (Fmt "[+] https://app.powerbi.com/groups/me/datasets/{}"
                      [AJson id]))
        newline in
  Cat msg (Fmt "[+] {}" [AStr (equals 80)]).

Definition close (e : exporter) : M unit :=
  (if (0 <? length (row_buffer e))%nat then flush e (row_buffer e) else ret tt) ;;;
  print (Lit "[+] Loading complete.") ;;;
  print (summary (dsid e)).

(** The host's loop: one [write_row] per row of the dataset. *)
Fixpoint write_rows (e : exporter) (rows : list (list json)) : M exporter :=
  match rows with
  | [] => ret e
  | row :: rest => e' <- write_row e row ;; write_rows e' rest
  end.

(** The plugin configuration [__init__] receives. *)
Record configuration : Type := {
  username : option string;
  password : option string;
  client_id : option string;
  client_secret : option string;
  plugin_settings : settings
}.

(** The exporter as [__init__] leaves it: the settings and the value of the
    [Authorization] header. *)
Record session : Type := {
  session_settings : settings;
  authorization : string
}.

(** [__init__]: the token exchange; ['Bearer ' + token] needs a string. *)
Definition init (c : configuration) : M session :=
  r <- generate_access_token net (username c) (password c) (client_id c)
         (client_secret c) ;;
  token <- lift (py_get r "access_token" JNull) ;;
  match token with
  | JNull =>
      print (Lit "ERROR [-] Error while retrieving your Power BI access token, please check your credentials.") ;;;
      print (Lit "ERROR [-] Azure authentication API response:") ;;;
      print (Fmt "{}" [AJson r]) ;;;
      raise (SystemExit "Authentication error")
  | JStr t =>
      ret {| session_settings := plugin_settings c;
             authorization := "Bearer " +:+ t |}
  | _ => raise TypeError
  end.

End Job.

End Exporter.

(** * Vocabulary of the statements *)

Import PowerBI Exporter.

Definition machine_of {A} (o : outcome A) : machine :=
  match o with
  | Ok _ m => m
  | Raise _ m => m
  end.

(** The machine after one more request. *)
Definition called (m : machine) (rq : request) : machine :=
  {| calls := calls m ++ [rq]; stdout := stdout m; logs := logs m |}.

(** The machine after more lines on standard output. *)
Definition printed (m : machine) (lines : list text) : machine :=
  {| calls := calls m; stdout := stdout m ++ lines; logs := logs m |}.

(** The machine after one more record of the logger. *)
Definition logged (m : machine) (l : level) (msg : text) : machine :=
  {| calls := calls m; stdout := stdout m; logs := logs m ++ [(l, msg)] |}.

(** The response the next HTTP call of machine [m] receives. *)
Definition next_response (net : nat -> response) (m : machine) : response :=
  net (length (calls m)).

(** The insertion request of a flush. *)
Definition flush_request (e : exporter) (rows : list (gmap string json))
  : request :=
  {| method := POST; url := rows_endpoint (dsid e); data := Rows rows |}.

(** A request is an insertion of [k] rows. *)
Definition inserts (k : Z) (rq : request) : Prop :=
  exists rows, method rq = POST /\ data rq = Rows rows
               /\ Z.of_nat (length rows) = k.

(** A response the report of a flush can print: a 2xx status, or a body
    that parses as JSON. *)
Definition reportable (r : response) : Prop :=
  is_2xx r = true \/ exists body, json_body r = Some body.

(** The exporter with another buffer and row counter. *)
Definition with_rows (e : exporter) (index : Z)
    (buffer : list (gmap string json)) : exporter :=
  {| config := config e; schema := schema e; dsid := dsid e;
     row_index := index; row_buffer := buffer |}.

(** The nested [{error: {message: ...}}] field of a JSON body, when the
    body has one. *)
Definition nested_message (r : response) : option json :=
  match json_body r with
  | Some (JObj o) =>
      match assoc "error" o with
      | Some (JObj e) => assoc "message" e
      | _ => None
      end
  | _ => None
  end.

(** The type mapping as a closed table with its default branch. *)
Definition power_bi_type (dss_type : string) : string :=
  if String.eqb dss_type "boolean" then "Boolean"
  else if String.eqb dss_type "tinyint" then "Int64"
  else if String.eqb dss_type "smallint" then "Int64"
  else if String.eqb dss_type "int" then "Int64"
  else if String.eqb dss_type "bigint" then "Int64"
  else if String.eqb dss_type "float" then "Double"
  else if String.eqb dss_type "double" then "Double"
  else if String.eqb dss_type "date" then "dateTime"
  else if String.eqb dss_type "string" then "String"
  else if String.eqb dss_type "array" then "String"
  else if String.eqb dss_type "map" then "String"
  else if String.eqb dss_type "object" then "String"
  else "String".

(** The columns of the first table of a dataset-creation document. *)
Definition payload_columns (d : payload) : option (list json) :=
  match d with
  | Doc (JObj o) =>
      match assoc "tables" o with
      | Some (JArr (JObj t :: _)) =>
          match assoc "columns" t with
          | Some (JArr cols) => Some cols
          | _ => None
          end
      | _ => None
      end
  | _ => None
  end.

(** A dataset of a listing, with the two fields the client reads. *)
Definition dataset_fields (d : json) : option (json * json) :=
  match d with
  | JObj o =>
      match assoc "name" o, assoc "id" o with
      | Some n, Some i => Some (n, i)
      | _, _ => None
      end
  | _ => None
  end.

(** The ids of the datasets of a listing named exactly [name]. *)
Definition ids_named (name : string) (listing : list json) : list json :=
  omap (fun d => match dataset_fields d with
                 | Some (JStr s, i) => if String.eqb s name then Some i else None
                 | _ => None
                 end) listing.





(** The lines a flush leaves on standard output. *)
Definition flush_report (r : response) (records : nat) : list text :=
  inserted_report (Z.of_nat records) (status_code r)
  :: (if is_2xx r then []
      else issue_report (status_code r)
           :: match json_body r with
              | Some body => [api_response_report body]
              | None => []
              end).





(** The requests of the client. *)
Definition list_request (pbi_group_id : option json) : request :=
  {| method := GET; url := get_datasets_base_url pbi_group_id; data := NoData |}.

Definition delete_request (pbi_group_id : option json) (id : json) : request :=
  {| method := DELETE;
     url := Fmt "{}/{}" [ASub (get_datasets_base_url pbi_group_id); AJson id];
     data := NoData |}.

Definition create_request (pbi_group_id : option json)
    (pbi_dataset : option string) (table : string) (sch : list column)
  : request :=
  {| method := POST;
     url := get_datasets_base_url pbi_group_id;
     data := Doc (dataset_payload pbi_dataset table sch) |}.

Definition groups_request : request :=
  {| method := GET; url := Lit GROUPS_API; data := NoData |}.

(** A column of the creation document, by the closed type table. *)
Definition mapped_column (c : column) : json :=
  JObj [ ("name", JStr (col_name c));
         ("dataType", JStr (power_bi_type (col_type c))) ].

(** The message of a classified error. *)
Definition classified_message (r : response) (while_trying : option text)
    (custom_error_messages : option (gmap Z string)) : text :=
  match default ∅ custom_error_messages !! status_code r with
  | Some supplied => Lit supplied
  | None =>
      match while_trying with
      | None =>
          Fmt "Error {}: {}"
              [AInt (status_code r);
               AJson (default (JStr (content r)) (nested_message r))]
      | Some what =>
          Fmt "Error {} while {}: {}"
              [AInt (status_code r); ASub what; AStr (content r)]
      end
  end.


(** The settings of an export into the dataset [name]. *)
Definition settings_for (name : string) (overwrite : bool) (capacity : Z)
  : settings :=
  {| pbi_dataset := Some name;
     pbi_overwrite := overwrite;
     pbi_buffer_size := capacity |}.

(** The rows an insertion request carries. *)
Definition request_rows (rq : request) : list (gmap string json) :=
  match data rq with
  | Rows rs => rs
  | _ => []
  end.

(** All the rows a sequence of requests carries, in the order sent. *)
Definition inserted_rows (rqs : list request) : list (gmap string json) :=
  flat_map request_rows rqs.


Definition token_request (c : configuration) : request :=
  {| method := POST;
     url := Lit TOKEN_API;
     data := Doc (token_form (username c) (password c) (client_id c)
                             (client_secret c)) |}.

Definition clear_request (pbi_group_id : option json) (id : json)
    (table : string) : request :=
  {| method := DELETE;
     url := table_rows_url pbi_group_id id table;
     data := NoData |}.

Definition table_rows_request (pbi_group_id : option json) (id : json)
    (table : string) (rows : list (gmap string json)) : request :=
  {| method := POST;
     url := table_rows_url pbi_group_id id table;
     data := Rows rows |}.

(** The types a Power BI column can be given. *)
Definition power_bi_types : list string :=
  ["Boolean"; "Int64"; "Double"; "dateTime"; "String"].

(** The names of the columns of a schema of DSS type [ty]. *)
Definition columns_of_type (ty : string) (sch : list column) : list string :=
  map col_name (List.filter (fun c => String.eqb (col_type c) ty) sch).


(** The message [get_group_id_by_name] supplies for status 401. *)
Definition no_access : string :=
  "No access to groups/workspaces lists. Please check your access rights.".

(** The string test of [is_2xx] against the range 200..299. *)
Definition agrees_on_2xx (z : Z) : bool :=
  Bool.eqb (startswith (str_int z) "2") ((200 <=? z) && (z <? 300)).

(** * Sample data *)

Definition sample_schema : list column :=
  [ {| col_name := "amt"; col_type := "double" |};
    {| col_name := "day"; col_type := "date" |};
    {| col_name := "paid"; col_type := "boolean" |} ].

Definition sample_settings (overwrite : bool) (capacity : Z) : settings :=
  {| pbi_dataset := Some "Sales";
     pbi_overwrite := overwrite;
     pbi_buffer_size := capacity |}.

(** An opened exporter of capacity 2, nothing written yet. *)
Definition sample_exporter : exporter :=
  {| config := sample_settings true 2;
     schema := sample_schema;
     dsid := JStr "ds-1";
     row_index := 0;
     row_buffer := [] |}.

Definition sample_row (k : Z) : list json :=
  [JInt k; JStr "2020-01-02"; JStr "true"].

Definition json_response_of (status : Z) (raw : string) (body : json) : response :=
  {| status_code := status;
     content := raw;
     json_body := Some body;
     content_type := Some "application/json; charset=utf-8" |}.

Definition ok_200 : response := json_response_of 200 "{}" (JObj []).

Definition error_500 : response :=
  json_response_of 500 "raw body of the 500"
    (JObj [("error", JObj [("message", JStr "boom")])]).

Definition html_502 : response :=
  {| status_code := 502;
     content := "<html>Bad Gateway</html>";
     json_body := None;
     content_type := Some "text/html" |}.

Definition three_rows : list (list json) :=
  [sample_row 1; sample_row 2; sample_row 3].

(** The sample exporter with two rows waiting in its buffer. *)
Definition loaded_exporter : exporter :=
  with_rows sample_exporter 2
    [row_object sample_schema (sample_row 1);
     row_object sample_schema (sample_row 2)].

(** A row one value short of the schema, and one with a value too many. *)
Definition short_row : list json := [JInt 7; JStr "2020-01-02"].
Definition long_row : list json :=
  [JInt 7; JStr "2020-01-02"; JStr "true"; JStr "extra"].

Definition not_found_404 : response :=
  json_response_of 404 "raw body of the 404"
    (JObj [("error", JObj [("message", JStr "gone")])]).

(** A listing of the datasets or workspaces in [items]. *)
Definition listing_of (items : list json) : response :=
  json_response_of 200 "raw listing" (JObj [("value", JArr items)]).

Definition dataset_entry (id name : string) : json :=
  JObj [("id", JStr id); ("name", JStr name)].

(** Two datasets named Sales, one named sales, one other. *)
Definition sample_listing : list json :=
  [ dataset_entry "ds-1" "Sales";
    dataset_entry "ds-2" "sales";
    dataset_entry "ds-3" "Stock";
    dataset_entry "ds-4" "Sales" ].






Definition unauthorized_401 : response :=
  json_response_of 401 "raw body of the 401"
    (JObj [("error", JObj [("message", JStr "token expired")])]).

Definition sample_configuration : configuration :=
  {| username := Some "ada"; password := Some "secret";
     client_id := Some "app"; client_secret := None;
     plugin_settings := sample_settings true 2 |}.

Definition token_response : response :=
  json_response_of 200 "raw body of the token answer"
    (JObj [("token_type", JStr "Bearer"); ("access_token", JStr "abc")]).

(** The service when the first deletion of an overwrite is refused. *)
Definition refusing_script (k : nat) : response :=
  match k with
  | O => listing_of sample_listing
  | _ => not_found_404
  end.

(** The service when the creation is answered without an id. *)
Definition idless_script (k : nat) : response :=
  match k with
  | O => listing_of sample_listing
  | 1%nat | 2%nat => ok_200
  | _ => json_response_of 200 "raw body" (JObj [("name", JStr "Sales")])
  end.


Definition plain_schema : list column :=
  [ {| col_name := "amt"; col_type := "double" |};
    {| col_name := "who"; col_type := "string" |} ].

(** * Properties *)

(** ** The exporter's flush *)

Section FlushFacts.

Variable net : nat -> response.

Lemma printed_printed m xs ys :
  printed (printed m xs) ys = printed m (xs ++ ys).
Proof. unfold printed; simpl. by rewrite <- app_assoc. Qed.

Lemma printed_nil m : printed m [] = m.
Proof. destruct m; unfold printed; simpl. by rewrite app_nil_r. Qed.

(** A flush always sends its request, whatever comes back. *)
Lemma flush_calls e rows m :
  calls (machine_of (flush net e rows m)) = calls m ++ [flush_request e rows].
Proof.
  unfold flush, bind, send, print, lift, response_json; simpl.
  destruct (is_2xx _); simpl; [done|].
  destruct (json_body _); simpl; done.
Qed.

(** A flush with a reportable response returns, having printed its report. *)
Lemma flush_reportable e rows m :
  reportable (next_response net m) ->
  flush net e rows m
  = Ok tt (printed (called m (flush_request e rows))
                   (flush_report (next_response net m) (length rows))).
Proof.
  intros Hrep. unfold flush, flush_report, bind, send, print, lift,
    response_json, next_response in *; simpl.
  destruct (is_2xx _) eqn:E2; simpl; [done|].
  destruct Hrep as [H|[body Hb]]; [congruence|].
  rewrite Hb; simpl. unfold printed, called; simpl.
  by rewrite <- !app_assoc.
Qed.

(** Without a 2xx status and without a JSON body, printing the report
    raises. *)
Lemma flush_unreportable e rows m :
  is_2xx (next_response net m) = false ->
  json_body (next_response net m) = None ->
  exists m', flush net e rows m = Raise ValueError m'.
Proof.
  intros H2 Hb. unfold flush, bind, send, print, lift, response_json,
    next_response in *; simpl.
  rewrite H2, Hb; simpl. eauto.
Qed.

End FlushFacts.

(** ** Row buffering *)

Section Buffering.

Variable net : nat -> response.

Lemma with_rows_id e : with_rows e (row_index e) (row_buffer e) = e.
Proof. by destruct e. Qed.

(** Within capacity a row is only buffered: no request, no output. *)
Lemma write_row_buffers e row m :
  Z.of_nat (length (row_buffer e)) + 1 <= pbi_buffer_size (config e) ->
  write_row net e row m
  = Ok (with_rows e (row_index e + 1)
                  (row_buffer e ++ [row_object (schema e) row])) m.
Proof.
  intros Hle. unfold write_row, bind.
  assert (Hgt : (Z.of_nat (length (row_buffer e ++ [row_object (schema e) row]))
                 >? pbi_buffer_size (config e)) = false).
  { rewrite length_app, Nat2Z.inj_add, Z.gtb_ltb; simpl. apply Z.ltb_ge. lia. }
  rewrite Hgt. reflexivity.
Qed.

(** Past capacity the buffer, the new row included, is flushed and cleared. *)
Lemma write_row_flushes e row m :
  pbi_buffer_size (config e) < Z.of_nat (length (row_buffer e)) + 1 ->
  reportable (next_response net m) ->
  let rows := row_buffer e ++ [row_object (schema e) row] in
  write_row net e row m
  = Ok (with_rows e (row_index e + 1) [])
       (printed (called m (flush_request e rows))
                (flush_report (next_response net m) (length rows))).
Proof.
  intros Hlt Hrep rows. unfold write_row, bind. fold rows.
  assert (Hlen : Z.of_nat (length rows) = Z.of_nat (length (row_buffer e)) + 1).
  { unfold rows. rewrite length_app, Nat2Z.inj_add. reflexivity. }
  assert (Hgt : (Z.of_nat (length rows) >? pbi_buffer_size (config e)) = true).
  { rewrite Z.gtb_ltb. apply Z.ltb_lt. lia. }
  rewrite Hgt, (flush_reportable net e rows m Hrep). reflexivity.
Qed.

(** The requests of a [write_row], in every outcome. *)
Lemma write_row_calls e row m :
  let rows := row_buffer e ++ [row_object (schema e) row] in
  calls (machine_of (write_row net e row m))
  = calls m ++ (if Z.of_nat (length rows) >? pbi_buffer_size (config e)
                then [flush_request e rows] else []).
Proof.
  intros rows. unfold write_row, bind. fold rows.
  destruct (Z.of_nat (length rows) >? pbi_buffer_size (config e)).
  - pose proof (flush_calls net e rows m) as Hc.
    destruct (flush net e rows m); simpl in *; exact Hc.
  - simpl. by rewrite app_nil_r.
Qed.

Lemma write_rows_app e xs ys m :
  write_rows net e (xs ++ ys) m
  = (e' <- write_rows net e xs ;; write_rows net e' ys) m.
Proof.
  revert e m. induction xs as [|x xs IH]; intros e m; simpl; [done|].
  unfold bind in *. destruct (write_row net e x m) as [e1 m1|]; [|done].
  apply IH.
Qed.

(** While the buffer stays within capacity, writing is silent. *)
Lemma write_rows_buffers rows : forall e m,
  Z.of_nat (length (row_buffer e)) + Z.of_nat (length rows)
    <= pbi_buffer_size (config e) ->
  write_rows net e rows m
  = Ok (with_rows e (row_index e + Z.of_nat (length rows))
                  (row_buffer e ++ map (row_object (schema e)) rows)) m.
Proof.
  induction rows as [|row rows IH]; intros e m Hle; simpl.
  - rewrite Z.add_0_r, app_nil_r, with_rows_id. reflexivity.
  - simpl length in Hle. rewrite Nat2Z.inj_succ in Hle.
    unfold bind. rewrite write_row_buffers by lia.
    rewrite IH; simpl.
    + unfold with_rows; simpl. f_equal. f_equal; [lia|].
      by rewrite <- app_assoc.
    + rewrite length_app, Nat2Z.inj_add; simpl. lia.
Qed.

Lemma close_empty e m :
  row_buffer e = [] ->
  close net e m
  = Ok tt (printed m [Lit "[+] Loading complete."; summary (dsid e)]).
Proof.
  intros He. unfold close, bind, print. rewrite He; simpl.
  unfold printed; simpl. by rewrite <- app_assoc.
Qed.

Lemma close_flushes e m :
  row_buffer e <> [] ->
  reportable (next_response net m) ->
  close net e m
  = Ok tt (printed (called m (flush_request e (row_buffer e)))
                   (flush_report (next_response net m) (length (row_buffer e))
                    ++ [Lit "[+] Loading complete."; summary (dsid e)])).
Proof.
  intros Hne Hrep. unfold close, bind.
  destruct (row_buffer e) as [|r rs] eqn:Eb; [done|].
  replace (0 <? length (r :: rs))%nat with true by done.
  rewrite <- Eb. rewrite (flush_reportable net e _ m Hrep).
  unfold print, printed, called; simpl. by rewrite <- !app_assoc.
Qed.

(** What a [write_row] that returns has done to the exporter. *)
Lemma write_row_returns e row m e1 m1 :
  write_row net e row m = Ok e1 m1 ->
  config e1 = config e /\ schema e1 = schema e /\ dsid e1 = dsid e
  /\ row_index e1 = row_index e + 1
  /\ (row_buffer e1 = []
      \/ (row_buffer e1 = row_buffer e ++ [row_object (schema e) row]
          /\ Z.of_nat (length (row_buffer e1)) <= pbi_buffer_size (config e))).
Proof.
  unfold write_row, bind.
  destruct (Z.gtb_spec
              (Z.of_nat (length (row_buffer e ++ [row_object (schema e) row])))
              (pbi_buffer_size (config e))) as [Hgt|Hle].
  - destruct (flush net e _ m) as [[] m'|]; [|done].
    unfold ret. intros [= <- <-]; simpl. tauto.
  - unfold ret. intros [= <- <-]; simpl. repeat split; try done. by right.
Qed.

(** With a reportable response at hand, [write_row] returns. *)
Lemma write_row_total e row m :
  reportable (next_response net m) ->
  exists e1 m1, write_row net e row m = Ok e1 m1.
Proof.
  intros Hrep.
  destruct (Z_le_gt_dec (Z.of_nat (length (row_buffer e)) + 1)
                        (pbi_buffer_size (config e))) as [Hle|Hgt].
  - rewrite write_row_buffers by done. eauto.
  - rewrite write_row_flushes by (done || lia). eauto.
Qed.

Lemma write_rows_returns rows : forall e m e1 m1,
  write_rows net e rows m = Ok e1 m1 ->
  config e1 = config e /\ schema e1 = schema e /\ dsid e1 = dsid e
  /\ row_index e1 = row_index e + Z.of_nat (length rows)
  /\ (Z.of_nat (length (row_buffer e)) <= pbi_buffer_size (config e) ->
      0 <= pbi_buffer_size (config e) ->
      Z.of_nat (length (row_buffer e1)) <= pbi_buffer_size (config e)).
Proof.
  induction rows as [|row rows IH]; intros e m e1 m1; simpl.
  - unfold ret. intros [= <- <-]. repeat split; try done. lia.
  - unfold bind. destruct (write_row net e row m) as [e' m'|] eqn:Ew; [|done].
    intros Hrest. apply write_row_returns in Ew as (Hc & Hs & Hd & Hi & Hb).
    apply IH in Hrest as (Hc' & Hs' & Hd' & Hi' & Hb').
    rewrite Hc in *. repeat split; try congruence.
    + rewrite Hi', Hi. lia.
    + intros Hlen Hcap. apply Hb'; [|done].
      destruct Hb as [->|[_ Hb]]; simpl; lia.
Qed.

Lemma write_rows_total rows : forall e m,
  (forall k, reportable (net k)) ->
  exists e1 m1, write_rows net e rows m = Ok e1 m1.
Proof.
  induction rows as [|row rows IH]; intros e m Hrep; simpl.
  - unfold ret. eauto.
  - unfold bind.
    destruct (write_row_total e row m (Hrep _)) as (e' & m' & ->).
    apply IH, Hrep.
Qed.

(** Every insertion a run of [write_row] sends, whether the run returns or
    raises, carries one row more than the capacity. *)
Lemma write_rows_flush_sizes rows : forall e m,
  0 <= pbi_buffer_size (config e) ->
  Z.of_nat (length (row_buffer e)) <= pbi_buffer_size (config e) ->
  exists new,
    calls (machine_of (write_rows net e rows m)) = calls m ++ new
    /\ Forall (inserts (pbi_buffer_size (config e) + 1)) new.
Proof.
  induction rows as [|row rows IH]; intros e m Hcap Hlen; simpl.
  - exists []. by rewrite app_nil_r.
  - pose proof (write_row_calls e row m) as Hcalls. simpl in Hcalls.
    assert (Hnew : Forall (inserts (pbi_buffer_size (config e) + 1))
              (if Z.of_nat (length (row_buffer e ++ [row_object (schema e) row]))
                  >? pbi_buffer_size (config e)
               then [flush_request e (row_buffer e ++ [row_object (schema e) row])]
               else [])).
    { destruct (Z.gtb_spec
              (Z.of_nat (length (row_buffer e ++ [row_object (schema e) row])))
              (pbi_buffer_size (config e))) as [Hgt|Hle]; [|constructor].
      constructor; [|constructor]. eexists. repeat split.
      rewrite length_app, Nat2Z.inj_add in *. simpl in *. lia. }
    unfold bind. destruct (write_row net e row m) as [e' m'|ex m'] eqn:Ew.
    + apply write_row_returns in Ew as (Hc & _ & _ & _ & Hb).
      destruct (IH e' m') as (new & Hn & Hall).
      { by rewrite Hc. }
      { rewrite Hc. destruct Hb as [->|[_ Hb]]; simpl; lia. }
      simpl in Hcalls. rewrite Hn, Hcalls, <- app_assoc. eexists. split; [done|].
      rewrite Hc in Hall. by apply Forall_app.
    + simpl in *. eauto.
Qed.

End Buffering.

(** ** The row object *)

Lemma combine_names (sch : list column) (row : list json) :
  map (fun cv => (col_name (fst cv), snd cv)) (combine sch row)
  = combine (map col_name sch) row.
Proof.
  revert row. induction sch as [|c sch IH]; intros [|v row]; simpl; try done.
  by rewrite IH.
Qed.

Lemma combine_keys {A B} (xs : list A) (ys : list B) :
  map fst (combine xs ys) = take (length ys) xs.
Proof.
  revert ys. induction xs as [|x xs IH]; intros [|y ys]; simpl; try done.
  by rewrite IH.
Qed.

Lemma combine_take {A B} (xs : list A) (ys : list B) :
  combine xs ys
  = combine (take (min (length xs) (length ys)) xs)
            (take (min (length xs) (length ys)) ys).
Proof.
  revert ys. induction xs as [|x xs IH]; intros [|y ys]; simpl; try done.
  by rewrite <- IH.
Qed.

(** The dict of [write_row] in closed form: the zipped pairs, a later pair
    overriding an earlier one of the same column name. *)
Lemma row_object_closed (sch : list column) (row : list json) :
  row_object sch row = list_to_map (rev (combine (map col_name sch) row)).
Proof.
  unfold row_object. rewrite <- fold_left_rev_right.
  rewrite <- combine_names, <- map_rev.
  induction (rev (combine sch row)) as [|cv l IH]; simpl; [done|].
  by rewrite IH.
Qed.

Lemma row_object_dom (sch : list column) (row : list json) :
  dom (row_object sch row)
  = list_to_set (map col_name (take (length row) sch)).
Proof.
  rewrite row_object_closed, dom_list_to_map_L.
  apply set_eq; intros k.
  rewrite !elem_of_list_to_set, <- firstn_map.
  rewrite <- (combine_keys (map col_name sch) row), !list_elem_of_In.
  change (In k (map fst (rev (combine (map col_name sch) row)))
          <-> In k (map fst (combine (map col_name sch) row))).
  rewrite map_rev. symmetry. apply in_rev.
Qed.

(** ** Status codes *)

Lemma agrees_on_http_range :
  forallb agrees_on_2xx (map Z.of_nat (seq 100 500)) = true.
Proof. vm_compute. reflexivity. Qed.

(** Property X1. On the status codes HTTP uses, 100 to 599, the string
    test of the exporter, [str(status_code).startswith('2')], holds exactly
    on the codes 200 to 299. *)
Lemma is_2xx_http r :
  100 <= status_code r < 600 ->
  is_2xx r = true <-> 200 <= status_code r < 300.
Proof.
  intros Hr. pose proof agrees_on_http_range as Hall.
  rewrite forallb_forall in Hall.
  specialize (Hall (status_code r)).
  assert (Hin : In (status_code r) (map Z.of_nat (seq 100 500))).
  { apply in_map_iff. exists (Z.to_nat (status_code r)). split; [lia|].
    apply in_seq. lia. }
  apply Hall in Hin. unfold agrees_on_2xx in Hin. apply Bool.eqb_prop in Hin.
  unfold is_2xx. rewrite Hin, andb_true_iff, Z.leb_le, Z.ltb_lt. tauto.
Qed.

(** ** Claims about the exporter *)

(** Claim C1, as amended. A flush of [write_row] or [close] that is answered
    with a non-2xx status and a JSON body raises nothing: the status code and
    the body are printed after the insertion line, [write_row] empties the
    buffer and counts the row, [close] goes on to its summary. *)
Theorem C1_insert_failure_is_reported net writer row closer m body :
  is_2xx (next_response net m) = false ->
  json_body (next_response net m) = Some body ->
  pbi_buffer_size (config writer) < Z.of_nat (length (row_buffer writer)) + 1 ->
  row_buffer closer <> [] ->
  let status := status_code (next_response net m) in
  let report (records : nat) :=
    [ inserted_report (Z.of_nat records) status;
      issue_report status;
      api_response_report body ] in
  let flushed := row_buffer writer ++ [row_object (schema writer) row] in
  write_row net writer row m
  = Ok (with_rows writer (row_index writer + 1) [])
       (printed (called m (flush_request writer flushed))
                (report (length flushed)))
  /\ close net closer m
     = Ok tt (printed (called m (flush_request closer (row_buffer closer)))
                      (report (length (row_buffer closer))
                       ++ [Lit "[+] Loading complete."; summary (dsid closer)])).
Proof.
  intros H2 Hb Hfull Hne status report flushed.
  assert (Hrep : reportable (next_response net m)) by (right; eauto).
  split.
  - rewrite write_row_flushes by done.
    unfold flush_report. rewrite H2, Hb. reflexivity.
  - rewrite close_flushes by done.
    unfold flush_report. rewrite H2, Hb. reflexivity.
Qed.

Lemma C1_insert_failure_is_reported_witness :
  exists m1 m2,
    write_row (fun _ => error_500) loaded_exporter (sample_row 3) boot
    = Ok (with_rows loaded_exporter 3 []) m1
    /\ close (fun _ => error_500) loaded_exporter boot = Ok tt m2.
Proof.
  destruct (C1_insert_failure_is_reported
              (fun _ => error_500) loaded_exporter (sample_row 3)
              loaded_exporter boot
              (JObj [("error", JObj [("message", JStr "boom")])]))
    as [Hw Hc].
  - vm_compute. reflexivity.
  - reflexivity.
  - simpl. lia.
  - discriminate.
  - eexists _, _. split; [exact Hw | exact Hc].
Defined.

(** The claim as stated fails: a 500 answer to the flush of the third row
    raises nothing, the export goes on with an empty buffer. *)
Lemma C1_counterexample :
  is_2xx error_500 = false
  /\ (forall ex m1,
        write_row (fun _ => error_500) loaded_exporter (sample_row 3) boot
        <> Raise ex m1)
  /\ (forall ex m1,
        close (fun _ => error_500) loaded_exporter boot <> Raise ex m1).
Proof.
  split; [vm_compute; reflexivity|].
  split; intros ex m1; vm_compute; discriminate.
Qed.

(** Claim C2. From an empty buffer with capacity [n >= 0]: writing exactly
    [n + 1] rows sends exactly one insertion, of these [n + 1] rows, and
    leaves the buffer empty, so that [close] then inserts nothing; writing at
    most [n] rows sends nothing and keeps them buffered, and [close] then
    sends exactly that batch once, or nothing when no row was written. *)
Theorem C2_row_buffering net e full partial m :
  0 <= pbi_buffer_size (config e) ->
  row_buffer e = [] ->
  Z.of_nat (length full) = pbi_buffer_size (config e) + 1 ->
  Z.of_nat (length partial) <= pbi_buffer_size (config e) ->
  reportable (next_response net m) ->
  (exists e1 m1 m2,
      write_rows net e full m = Ok e1 m1
      /\ calls m1
         = calls m ++ [flush_request e (map (row_object (schema e)) full)]
      /\ inserts (pbi_buffer_size (config e) + 1)
                 (flush_request e (map (row_object (schema e)) full))
      /\ row_buffer e1 = []
      /\ close net e1 m1 = Ok tt m2
      /\ calls m2 = calls m1)
  /\ (exists e1 m2,
      write_rows net e partial m = Ok e1 m
      /\ row_buffer e1 = map (row_object (schema e)) partial
      /\ close net e1 m = Ok tt m2
      /\ calls m2
         = calls m ++ match partial with
                      | [] => []
                      | _ => [flush_request e (map (row_object (schema e)) partial)]
                      end).
Proof.
  intros Hcap Hempty Hfull Hpart Hrep. split.
  - destruct (exists_last (l := full)) as (init & last & ->).
    { intros ->. simpl in Hfull. lia. }
    rewrite length_app, Nat2Z.inj_add in Hfull. simpl in Hfull.
    rewrite write_rows_app. unfold bind.
    rewrite write_rows_buffers by (rewrite Hempty; simpl; lia).
    rewrite Hempty. simpl write_rows. unfold bind.
    rewrite write_row_flushes; simpl; rewrite ?length_map; [|lia|done].
    unfold ret. rewrite map_app. simpl.
    eexists _, _, _. split; [reflexivity|]. split; [reflexivity|].
    split.
    { eexists. repeat split. rewrite length_app, length_map, Nat2Z.inj_add.
      simpl. lia. }
    split; [reflexivity|]. split; [apply close_empty; reflexivity|].
    reflexivity.
  - rewrite write_rows_buffers by (rewrite Hempty; simpl; lia).
    rewrite Hempty. simpl app.
    destruct partial as [|row rows].
    + eexists _, _. split; [reflexivity|]. split; [reflexivity|].
      split; [apply close_empty; reflexivity|]. simpl. by rewrite app_nil_r.
    + eexists _, _. split; [reflexivity|]. split; [reflexivity|].
      split; [apply close_flushes; [discriminate|done]|]. reflexivity.
Qed.

Lemma C2_row_buffering_witness :
  (exists e1 m1,
      write_rows (fun _ => ok_200) sample_exporter three_rows boot = Ok e1 m1
      /\ calls m1
         = [flush_request sample_exporter
              (map (row_object sample_schema) three_rows)]
      /\ row_buffer e1 = [])
  /\ (exists e1 m2,
      write_rows (fun _ => ok_200) sample_exporter [sample_row 1] boot
      = Ok e1 boot
      /\ close (fun _ => ok_200) e1 boot = Ok tt m2
      /\ calls m2
         = [flush_request sample_exporter
              [row_object sample_schema (sample_row 1)]]).
Proof.
  destruct (C2_row_buffering (fun _ => ok_200) sample_exporter three_rows
              [sample_row 1] boot)
    as [(e1 & m1 & m2 & Hw & Hc & _ & Hb & _) (e2 & m3 & Hw' & _ & Hcl & Hc')].
  - simpl. lia.
  - reflexivity.
  - reflexivity.
  - simpl. lia.
  - left. vm_compute. reflexivity.
  - split.
    + exists e1, m1. split; [exact Hw|]. split; [exact Hc | exact Hb].
    + exists e2, m3. split; [exact Hw'|]. split; [exact Hcl | exact Hc'].
Defined.

(** Claim C7. With capacity [n >= 0] and a buffer within capacity, every
    insertion sent during any run of [write_row] calls carries exactly
    [n + 1] rows, whether the run returns or raises; and when the responses
    are reportable the run returns with the row counter advanced by one per
    row written, flushed or not, and the buffer back within capacity. *)
Theorem C7_flush_size_and_row_index net e rows m :
  0 <= pbi_buffer_size (config e) ->
  Z.of_nat (length (row_buffer e)) <= pbi_buffer_size (config e) ->
  (exists new,
      calls (machine_of (write_rows net e rows m)) = calls m ++ new
      /\ Forall (inserts (pbi_buffer_size (config e) + 1)) new)
  /\ ((forall k, reportable (net k)) ->
      exists e1 m1,
        write_rows net e rows m = Ok e1 m1
        /\ row_index e1 = row_index e + Z.of_nat (length rows)
        /\ Z.of_nat (length (row_buffer e1)) <= pbi_buffer_size (config e)).
Proof.
  intros Hcap Hlen. split.
  - by apply write_rows_flush_sizes.
  - intros Hrep.
    destruct (write_rows_total net rows e m Hrep) as (e1 & m1 & Hw).
    exists e1, m1. split; [done|].
    apply write_rows_returns in Hw as (_ & _ & _ & Hi & Hb). auto.
Qed.

Lemma C7_flush_size_and_row_index_witness :
  (exists new,
      calls (machine_of (write_rows (fun _ => html_502) sample_exporter
                           (three_rows ++ three_rows) boot)) = new
      /\ Forall (inserts 3) new)
  /\ exists e1 m1,
      write_rows (fun _ => error_500) sample_exporter
                 (three_rows ++ three_rows) boot = Ok e1 m1
      /\ row_index e1 = 6.
Proof.
  split.
  - destruct (C7_flush_size_and_row_index (fun _ => html_502) sample_exporter
                (three_rows ++ three_rows) boot)
      as [(new & Hc & Hall) _]; [simpl; lia | simpl; lia |].
    exists new. split; [exact Hc | exact Hall].
  - destruct (C7_flush_size_and_row_index (fun _ => error_500) sample_exporter
                (three_rows ++ three_rows) boot)
      as [_ Hrun]; [simpl; lia | simpl; lia |].
    destruct Hrun as (e1 & m1 & Hw & Hi & _).
    + intros k. right. eexists. reflexivity.
    + exists e1, m1. split; [exact Hw | exact Hi].
Defined.

(** Claim C10. [write_row] never looks at the length of the row: the row
    object is the dict of the zipped pairs, which stop at the shorter of
    schema and row, so that values past the schema are dropped and the
    columns past the row are not keys of the object; the call then returns
    as for any other row, the object buffered or sent with the flush. *)
Theorem C10_row_is_zipped_and_truncated net e row m :
  reportable (next_response net m) ->
  let obj := row_object (schema e) row in
  let shorter := min (length (schema e)) (length row) in
  obj = list_to_map (rev (combine (map col_name (schema e)) row))
  /\ obj = row_object (take shorter (schema e)) (take shorter row)
  /\ dom obj = list_to_set (map col_name (take (length row) (schema e)))
  /\ exists e1 m1,
      write_row net e row m = Ok e1 m1
      /\ row_index e1 = row_index e + 1
      /\ (row_buffer e1 = row_buffer e ++ [obj] /\ m1 = m
          \/ row_buffer e1 = []
             /\ calls m1 = calls m ++ [flush_request e (row_buffer e ++ [obj])]).
Proof.
  intros Hrep obj shorter.
  split; [apply row_object_closed|].
  split; [unfold obj, row_object; by rewrite (combine_take (schema e) row)|].
  split; [apply row_object_dom|].
  destruct (Z_le_gt_dec (Z.of_nat (length (row_buffer e)) + 1)
                        (pbi_buffer_size (config e))) as [Hle|Hgt].
  - rewrite write_row_buffers by done. eexists _, _.
    split; [reflexivity|]. split; [reflexivity|]. left. by split.
  - rewrite write_row_flushes by (done || lia). eexists _, _.
    split; [reflexivity|]. split; [reflexivity|]. right. by split.
Qed.

Lemma C10_row_is_zipped_and_truncated_witness :
  dom (row_object sample_schema short_row) = list_to_set ["amt"; "day"]
  /\ row_object sample_schema long_row
     = row_object (take 3 sample_schema) (take 3 long_row)
  /\ exists e1 m1,
      write_row (fun _ => ok_200) sample_exporter short_row boot = Ok e1 m1
      /\ row_index e1 = 1.
Proof.
  destruct (C10_row_is_zipped_and_truncated (fun _ => ok_200) sample_exporter
              short_row boot)
    as (_ & _ & Hdom & e1 & m1 & Hw & Hi & _).
  { left. vm_compute. reflexivity. }
  destruct (C10_row_is_zipped_and_truncated (fun _ => ok_200) sample_exporter
              long_row boot)
    as (_ & Hcut & _).
  { left. vm_compute. reflexivity. }
  split; [exact Hdom|]. split; [exact Hcut|].
  exists e1, m1. split; [exact Hw | exact Hi].
Defined.

(** ** Error classification *)

(** The message read from the body is the nested field when there is one,
    the raw body otherwise. *)
Lemma extract_nested_or_raw r :
  extract_error_message_from_response r
  = default (JStr (content r)) (nested_message r).
Proof.
  unfold extract_error_message_from_response, nested_message, response_json.
  destruct (json_body r) as [body|]; simpl; [|done].
  destruct body as [| | | | s | l | o]; simpl; try done.
  - by destruct (contains s "error").
  - by destruct (existsb _ l).
  - destruct (assoc "error" o) as [v|]; simpl; [|done].
    destruct v as [| | | | s | l | e]; simpl; try done.
    + by destruct (contains s "message").
    + by destruct (existsb _ l).
    + by destruct (assoc "message" e).
Qed.

Lemma get_error_message_classified r while_trying custom :
  get_error_message r while_trying custom
  = classified_message r while_trying custom.
Proof.
  unfold get_error_message, classified_message.
  destruct (default ∅ custom !! status_code r); [done|].
  destruct while_trying; [done|]. by rewrite extract_nested_or_raw.
Qed.

(** Below 400 nothing is classified. *)
Lemma assert_response_ok_passes r while_trying fail_on_errors custom m :
  status_code r < 400 ->
  assert_response_ok r while_trying fail_on_errors custom m = Ok tt m.
Proof.
  intros Hlt. unfold assert_response_ok.
  destruct (Z.geb_spec (status_code r) 400); [lia|done].
Qed.

(** Claim C9, as amended. For a response of status 400 or more the message
    is the caller-supplied one for that status code when there is one;
    otherwise, if the caller named no operation, the status code with the
    nested [{error: {message}}] field of the JSON body, or with the raw body
    when the body has no such field or is no JSON; otherwise the status code
    with the operation and the raw body. The error is raised, or only logged
    when the caller marked the operation best-effort. *)
Theorem C9_error_message_precedence r while_trying fail_on_errors custom m :
  400 <= status_code r ->
  assert_response_ok r while_trying fail_on_errors custom m
  = if fail_on_errors
    then Raise (Exception (classified_message r while_trying custom)) m
    else Ok tt (logged m ERROR (classified_message r while_trying custom)).
Proof.
  intros Hge. unfold assert_response_ok.
  destruct (Z.geb_spec (status_code r) 400); [|lia].
  rewrite get_error_message_classified.
  by destruct fail_on_errors.
Qed.

Lemma C9_error_message_precedence_witness :
  assert_response_ok error_500 None true None boot
  = Raise (Exception (Fmt "Error {}: {}" [AInt 500; AJson (JStr "boom")])) boot
  /\ assert_response_ok html_502 None false (Some {[ 502 := "gateway" ]}) boot
     = Ok tt (logged boot ERROR (Lit "gateway")).
Proof.
  split.
  - apply (C9_error_message_precedence error_500 None true None boot).
    simpl. lia.
  - rewrite (C9_error_message_precedence html_502 None false
               (Some {[ 502 := "gateway" ]}) boot) by (simpl; lia).
    vm_compute. reflexivity.
Defined.

(** The claim as stated fails: deleting a dataset that is gone reports the
    raw body, although the body carries a nested message and the caller
    supplied no message of its own. *)
Lemma C9_counterexample :
  nested_message not_found_404 = Some (JStr "gone")
  /\ delete_dataset (fun _ => not_found_404) (JStr "ds-1") None boot
     = Raise (Exception
                (Fmt "Error {} while {}: {}"
                     [AInt 404;
                      ASub (Fmt "deleting {}" [AJson (JStr "ds-1")]);
                      AStr "raw body of the 404"]))
             (called boot (delete_request None (JStr "ds-1"))).
Proof. split; reflexivity. Qed.

(** ** The dataset-creation document *)

(** The dict lookup with its default is the closed table. *)
Lemma fieldSetterMap_table dss_type :
  default "String" (fieldSetterMap !! dss_type) = power_bi_type dss_type.
Proof.
  unfold power_bi_type.
  repeat match goal with
         | |- context [String.eqb dss_type ?known] =>
             destruct (String.eqb_spec dss_type known) as [->|?];
             [vm_compute; reflexivity|]
         end.
  assert (Hnone : fieldSetterMap !! dss_type = None); [|by rewrite Hnone].
  apply not_elem_of_list_to_map_1. simpl.
  rewrite !not_elem_of_cons. repeat split; try assumption. apply not_elem_of_nil.
Qed.

Lemma new_column_mapped c : new_column c = mapped_column c.
Proof. unfold new_column, mapped_column. by rewrite fieldSetterMap_table. Qed.

(** The requests of [post], in every outcome. *)
Lemma post_calls net u d fail_on_errors m :
  calls (machine_of (post net u d fail_on_errors m))
  = calls m ++ [{| method := POST; url := u; data := d |}].
Proof.
  unfold post, bind, send, assert_response_ok, handle_exception_message,
    answer, lift, raise, log, ret; simpl.
  destruct (_ >=? 400); simpl.
  - destruct fail_on_errors; simpl; [done|].
    destruct (is_json_response _) as [[]|]; simpl; try done.
    by destruct (response_json _).
  - destruct (is_json_response _) as [[]|]; simpl; try done.
    by destruct (response_json _).
Qed.

(** Claim C4. Whatever the schema and whatever the service answers,
    [create_dataset_from_schema] posts one document; its table has one
    column per column of the schema, in the order of the schema, each with
    the name of its source column and the type the closed table gives for
    the source type, which is String for every type the table does not
    list. *)
Theorem C4_payload_columns_follow_schema
    net pbi_dataset table pbi_group_id (sch : list column) m :
  exists rq cols,
    calls (machine_of
             (create_dataset_from_schema net pbi_dataset table pbi_group_id sch m))
    = calls m ++ [rq]
    /\ rq = create_request pbi_group_id pbi_dataset table sch
    /\ payload_columns (data rq) = Some cols
    /\ length cols = length sch
    /\ cols = map mapped_column sch.
Proof.
  exists (create_request pbi_group_id pbi_dataset table sch),
         (map mapped_column sch).
  split; [apply post_calls|]. split; [done|].
  split; [|split; [apply length_map|done]].
  simpl. f_equal. apply map_ext. intros c. apply new_column_mapped.
Qed.

(** ** Looking datasets up by name *)

Lemma dataset_fields_inv d n i :
  dataset_fields d = Some (n, i) ->
  py_getitem d "name" = Val n /\ py_getitem d "id" = Val i.
Proof.
  destruct d as [| | | | | |o]; simpl; try done.
  destruct (assoc "name" o), (assoc "id" o); simpl; try done.
  by intros [= -> ->].
Qed.

(** On a listing whose datasets carry a name and an id, the loop collects
    the ids of the datasets named exactly [name], in the order of the
    listing. *)
Lemma matching_ids_named name listing :
  Forall (fun d => is_Some (dataset_fields d)) listing ->
  matching_ids (Some name) listing = Val (ids_named name listing).
Proof.
  induction 1 as [|d listing [[n i] Hd] _ IH]; simpl; [done|].
  unfold ids_named in *. simpl. rewrite Hd.
  destruct (dataset_fields_inv d n i Hd) as [-> ->]. simpl.
  destruct n as [| | | |s| |]; simpl; try exact IH.
  destruct (String.eqb s name); simpl; [|exact IH].
  by rewrite IH.
Qed.

Lemma elem_of_ids_named name listing i :
  i ∈ ids_named name listing
  <-> exists d, d ∈ listing /\ dataset_fields d = Some (JStr name, i).
Proof.
  unfold ids_named. rewrite list_elem_of_omap. split.
  - intros (d & Hin & Hd). exists d. split; [done|].
    destruct (dataset_fields d) as [[[| | | |s| |] i']|]; try done.
    destruct (String.eqb_spec s name) as [->|]; [|done]. by injection Hd as ->.
  - intros (d & Hin & Hd). exists d. split; [done|].
    rewrite Hd. by rewrite String.eqb_refl.
Qed.

(** The listing request and its reading, shared by the lookups below. *)
Lemma get_dataset_by_name_listing net name pbi_group_id m body listing :
  json_body (next_response net m) = Some body ->
  py_get body "value" JNull = Val (JArr listing) ->
  Forall (fun d => is_Some (dataset_fields d)) listing ->
  get_dataset_by_name net (Some name) pbi_group_id m
  = Ok (ids_named name listing) (called m (list_request pbi_group_id)).
Proof.
  intros Hbody Hvalue Hall.
  unfold get_dataset_by_name, get_datasets, bind, send, lift, response_json.
  unfold next_response in Hbody. simpl. rewrite Hbody. simpl.
  rewrite Hvalue. simpl.
  destruct listing as [|d listing]; simpl; [done|].
  pose proof (matching_ids_named name (d :: listing) Hall) as Hm.
  simpl in Hm. rewrite Hm. reflexivity.
Qed.

(** Claim C5. On every listing the service returns, its datasets carrying a
    name and an id, [get_dataset_by_name] returns exactly the ids of the
    datasets whose name is the query string, character for character: an id
    is returned if and only if a dataset of that name has it, so the result
    is non-empty whenever a dataset matches and empty when none does. *)
Theorem C5_ids_of_exact_name net name pbi_group_id m body listing :
  json_body (next_response net m) = Some body ->
  py_get body "value" JNull = Val (JArr listing) ->
  Forall (fun d => is_Some (dataset_fields d)) listing ->
  exists ids,
    get_dataset_by_name net (Some name) pbi_group_id m
    = Ok ids (called m (list_request pbi_group_id))
    /\ ids = ids_named name listing
    /\ (forall i, i ∈ ids
          <-> exists d, d ∈ listing /\ dataset_fields d = Some (JStr name, i))
    /\ (ids <> []
          <-> exists d i, d ∈ listing /\ dataset_fields d = Some (JStr name, i)).
Proof.
  intros Hbody Hvalue Hall. exists (ids_named name listing).
  split; [by eapply get_dataset_by_name_listing|]. split; [done|].
  split; [apply elem_of_ids_named|].
  split.
  - intros Hne. destruct (ids_named name listing) as [|i ids] eqn:E; [done|].
    assert (Hi : i ∈ ids_named name listing) by (rewrite E; left).
    apply elem_of_ids_named in Hi as (d & Hin & Hd). eauto.
  - intros (d & i & Hin & Hd) Hnil.
    assert (Hi : i ∈ ids_named name listing) by (apply elem_of_ids_named; eauto).
    rewrite Hnil in Hi. by apply not_elem_of_nil in Hi.
Qed.

Lemma C5_ids_of_exact_name_witness :
  get_dataset_by_name (fun _ => listing_of sample_listing) (Some "Sales")
    None boot
  = Ok [JStr "ds-1"; JStr "ds-4"] (called boot (list_request None))
  /\ get_dataset_by_name (fun _ => listing_of sample_listing) (Some "SALES")
       None boot
     = Ok [] (called boot (list_request None)).
Proof.
  assert (Hall : Forall (fun d => is_Some (dataset_fields d)) sample_listing).
  { repeat constructor; eexists; reflexivity. }
  split.
  - destruct (C5_ids_of_exact_name (fun _ => listing_of sample_listing)
                "Sales" None boot (JObj [("value", JArr sample_listing)])
                sample_listing eq_refl eq_refl Hall)
      as (ids & Hrun & -> & _).
    exact Hrun.
  - destruct (C5_ids_of_exact_name (fun _ => listing_of sample_listing)
                "SALES" None boot (JObj [("value", JArr sample_listing)])
                sample_listing eq_refl eq_refl Hall)
      as (ids & Hrun & -> & _).
    exact Hrun.
Defined.

(** ** Resolving a workspace *)






(** ** Opening the export *)

Section Opening.

Variable net : nat -> response.

Lemma delete_dataset_accepted id pbi_group_id m :
  status_code (next_response net m) < 400 ->
  exists m1,
    delete_dataset net id pbi_group_id m = Ok (next_response net m) m1
    /\ calls m1 = calls m ++ [delete_request pbi_group_id id]
    /\ stdout m1 = stdout m.
Proof.
  intros Hstatus. unfold delete_dataset, bind, send, next_response in *.
  rewrite assert_response_ok_passes by done.
  unfold log, ret. eexists. split; [reflexivity|]. by split.
Qed.

(** The deletion loop of [open], every deletion accepted. *)
Lemma delete_all_accepted ids : forall m,
  (forall k, (length (calls m) <= k < length (calls m) + length ids)%nat ->
             status_code (net k) < 400) ->
  exists m1,
    for_each ids (fun dataset => delete_dataset net dataset None ;;; ret tt) m
    = Ok tt m1
    /\ calls m1 = calls m ++ map (delete_request None) ids
    /\ stdout m1 = stdout m.
Proof.
  induction ids as [|id ids IH]; intros m Hacc; simpl.
  - exists m. unfold ret. by rewrite app_nil_r.
  - unfold bind at 1.
    destruct (delete_dataset_accepted id None m) as (m1 & Hd & Hc & Ho).
    { apply Hacc. simpl. lia. }
    unfold bind at 1. rewrite Hd. unfold ret at 1.
    destruct (IH m1) as (m2 & Hrun & Hc2 & Ho2).
    { intros k Hk. apply Hacc. rewrite Hc, length_app in Hk. simpl in *. lia. }
    exists m2. split; [exact Hrun|]. split.
    + rewrite Hc2, Hc, <- app_assoc. reflexivity.
    + congruence.
Qed.

Lemma create_dataset_returns_body pbi_dataset table pbi_group_id sch m created :
  status_code (next_response net m) < 400 ->
  is_json_response (next_response net m) = Val true ->
  json_body (next_response net m) = Some created ->
  create_dataset_from_schema net pbi_dataset table pbi_group_id sch m
  = Ok (ReplyJson created)
       (called m (create_request pbi_group_id pbi_dataset table sch)).
Proof.
  intros Hstatus Hjson Hbody.
  unfold create_dataset_from_schema, post, bind, send, next_response in *.
  rewrite assert_response_ok_passes by done.
  unfold answer, bind, lift, response_json. rewrite Hjson, Hbody. reflexivity.
Qed.

End Opening.



(** ** The value transformation *)
















(** * Further properties of the exporter *)

Lemma is_2xx_http_witness :
  (is_2xx ok_200 = true <-> 200 <= status_code ok_200 < 300)
  /\ (is_2xx html_502 = true <-> 200 <= status_code html_502 < 300).
Proof.
  split.
  - apply (is_2xx_http ok_200). simpl. lia.
  - apply (is_2xx_http html_502). simpl. lia.
Defined.

Section Conservation.

Variable net : nat -> response.

(** The two ways a [write_row] returns: the row joined the buffer and
    nothing was sent, or the buffer with the row was sent and cleared. *)
Lemma write_row_cases e row m e1 m1 :
  write_row net e row m = Ok e1 m1 ->
  let rows := row_buffer e ++ [row_object (schema e) row] in
  config e1 = config e /\ schema e1 = schema e /\ dsid e1 = dsid e
  /\ (Z.of_nat (length rows) <= pbi_buffer_size (config e)
      /\ row_buffer e1 = rows /\ calls m1 = calls m
      \/ pbi_buffer_size (config e) < Z.of_nat (length rows)
         /\ row_buffer e1 = []
         /\ calls m1 = calls m ++ [flush_request e rows]).
Proof.
  intros Hw rows. pose proof (write_row_calls net e row m) as Hc.
  rewrite Hw in Hc. simpl in Hc. fold rows in Hc.
  revert Hw Hc. unfold write_row, bind. fold rows.
  destruct (Z.gtb_spec (Z.of_nat (length rows)) (pbi_buffer_size (config e)))
    as [Hgt|Hle].
  - destruct (flush net e rows m) as [[] m'|]; [|done].
    unfold ret. intros [= <- <-] Hc. simpl.
    split; [done|]. split; [done|]. split; [done|].
    right. split; [lia|]. by split.
  - unfold ret. intros [= <- <-] Hc. simpl.
    split; [done|]. split; [done|]. split; [done|].
    left. split; [lia|]. split; [done|]. by rewrite app_nil_r in Hc.
Qed.

Lemma write_rows_conserve rows : forall e m e1 m1,
  write_rows net e rows m = Ok e1 m1 ->
  dsid e1 = dsid e
  /\ exists new,
      calls m1 = calls m ++ new
      /\ inserted_rows new ++ row_buffer e1
         = row_buffer e ++ map (row_object (schema e)) rows.
Proof.
  induction rows as [|row rows IH]; intros e m e1 m1; simpl.
  - unfold ret. intros [= <- <-]. split; [done|]. exists []. simpl.
    by rewrite !app_nil_r.
  - unfold bind. destruct (write_row net e row m) as [e' m'|] eqn:Hw; [|done].
    intros Hrest. apply write_row_cases in Hw as (_ & Hs & Hd & Hcase).
    apply IH in Hrest as (Hd' & new & Hc & Hrows). rewrite Hs in Hrows.
    split; [congruence|].
    destruct Hcase as [(_ & Hb & Hm)|(_ & Hb & Hm)].
    + exists new. split; [congruence|].
      rewrite Hrows, Hb, <- app_assoc. reflexivity.
    + exists (flush_request e (row_buffer e ++ [row_object (schema e) row])
              :: new).
      split; [rewrite Hc, Hm, <- app_assoc; reflexivity|].
      simpl. unfold request_rows at 1. simpl.
      rewrite <- !app_assoc. f_equal. rewrite Hrows, Hb. reflexivity.
Qed.

(** Property X2. Rows are neither lost nor repeated. When the service's answers are
    printable, writing any rows and closing returns, and the rows of the
    insertions sent, taken in order, are the rows that were waiting in the
    buffer followed by the row objects of the rows written. *)
Theorem export_inserts_every_row_once e rows m :
  (forall k, reportable (net k)) ->
  exists e1 m1 m2 new,
    write_rows net e rows m = Ok e1 m1
    /\ close net e1 m1 = Ok tt m2
    /\ calls m2 = calls m ++ new
    /\ inserted_rows new
       = row_buffer e ++ map (row_object (schema e)) rows.
Proof.
  intros Hrep.
  destruct (write_rows_total net rows e m Hrep) as (e1 & m1 & Hw).
  destruct (write_rows_conserve rows e m e1 m1 Hw) as (_ & new & Hc & Hrows).
  destruct (row_buffer e1) as [|r rs] eqn:Hb.
  - exists e1, m1. eexists _, new. split; [done|].
    split; [by apply close_empty|]. split; [done|].
    by rewrite app_nil_r in Hrows.
  - exists e1, m1. eexists _, (new ++ [flush_request e1 (row_buffer e1)]).
    split; [done|]. split.
    { apply close_flushes; [by rewrite Hb|apply Hrep]. }
    split; [simpl; rewrite Hc, <- app_assoc; reflexivity|].
    unfold inserted_rows in *. rewrite flat_map_app. simpl.
    unfold request_rows at 2. simpl. rewrite app_nil_r, Hb. exact Hrows.
Qed.

(** Property X3. How often the buffer is flushed. With capacity [n >= 0], [b <= n]
    rows waiting and printable answers, writing [k] rows sends
    [(b + k) / (n + 1)] insertions and leaves [(b + k) mod (n + 1)] rows in
    the buffer. *)
Theorem flush_count_is_quotient rows : forall e m,
  0 <= pbi_buffer_size (config e) ->
  Z.of_nat (length (row_buffer e)) <= pbi_buffer_size (config e) ->
  (forall k, reportable (net k)) ->
  exists e1 m1 new,
    write_rows net e rows m = Ok e1 m1
    /\ calls m1 = calls m ++ new
    /\ Z.of_nat (length new)
       = (Z.of_nat (length (row_buffer e)) + Z.of_nat (length rows))
         / (pbi_buffer_size (config e) + 1)
    /\ Z.of_nat (length (row_buffer e1))
       = (Z.of_nat (length (row_buffer e)) + Z.of_nat (length rows))
         mod (pbi_buffer_size (config e) + 1).
Proof.
  induction rows as [|row rows IH]; intros e m Hcap Hlen Hrep.
  - exists e, m, []. simpl. unfold ret. rewrite app_nil_r, Z.add_0_r.
    split; [done|]. split; [done|].
    rewrite Z.div_small, Z.mod_small by lia. done.
  - simpl write_rows. unfold bind.
    destruct (write_row_total net e row m (Hrep _)) as (e' & m' & Hw).
    rewrite Hw.
    apply write_row_cases in Hw as (Hc & _ & _ & Hcase).
    rewrite length_app, Nat2Z.inj_add in Hcase. simpl in Hcase.
    destruct Hcase as [(Hle & Hb & Hm)|(Hgt & Hb & Hm)].
    + destruct (IH e' m') as (e1 & m1 & new & Hrun & Hcalls & Hn & Hr).
      { by rewrite Hc. }
      { rewrite Hc, Hb, length_app, Nat2Z.inj_add. simpl. lia. }
      { done. }
      exists e1, m1, new. split; [done|]. split; [congruence|].
      rewrite Hc, Hb, length_app, Nat2Z.inj_add in Hn, Hr. simpl in Hn, Hr.
      simpl length. rewrite Nat2Z.inj_succ.
      split; [rewrite Hn|rewrite Hr]; f_equal; lia.
    + destruct (IH e' m') as (e1 & m1 & new & Hrun & Hcalls & Hn & Hr).
      { by rewrite Hc. }
      { rewrite Hc, Hb. simpl. lia. }
      { done. }
      eexists e1, m1, (_ :: new). split; [done|].
      split; [rewrite Hcalls, Hm, <- app_assoc; reflexivity|].
      rewrite Hc, Hb in Hn, Hr. simpl in Hn, Hr.
      assert (Hfull : Z.of_nat (length (row_buffer e))
                      = pbi_buffer_size (config e)) by lia.
      simpl length. rewrite !Nat2Z.inj_succ, Hfull.
      replace (pbi_buffer_size (config e) + Z.succ (Z.of_nat (length rows)))
        with (Z.of_nat (length rows) + 1 * (pbi_buffer_size (config e) + 1))
        by lia.
      rewrite Z.div_add, Z.mod_add by lia.
      change (Z.of_nat 0) with 0 in Hn, Hr. rewrite Z.add_0_l in Hn, Hr.
      split; [lia|done].
Qed.

End Conservation.

Lemma export_inserts_every_row_once_witness :
  exists e1 m1 m2 new,
    write_rows (fun _ => error_500) sample_exporter
               (three_rows ++ [sample_row 4]) boot = Ok e1 m1
    /\ close (fun _ => error_500) e1 m1 = Ok tt m2
    /\ calls m2 = new
    /\ inserted_rows new
       = map (row_object sample_schema) (three_rows ++ [sample_row 4]).
Proof.
  apply (export_inserts_every_row_once (fun _ => error_500) sample_exporter
           (three_rows ++ [sample_row 4]) boot).
  intros k. right. eexists. reflexivity.
Defined.

Lemma flush_count_is_quotient_witness :
  exists e1 m1 new,
    write_rows (fun _ => ok_200) sample_exporter
               (three_rows ++ three_rows ++ [sample_row 7]) boot = Ok e1 m1
    /\ calls m1 = new
    /\ Z.of_nat (length new) = 2
    /\ Z.of_nat (length (row_buffer e1)) = 1.
Proof.
  apply (flush_count_is_quotient (fun _ => ok_200)
           (three_rows ++ three_rows ++ [sample_row 7]) sample_exporter boot).
  - simpl. lia.
  - simpl. lia.
  - intros k. left. vm_compute. reflexivity.
Defined.

(** ** Reading a value back from the row object *)

Lemma row_object_fold_other (sch : list column) : forall (row : list json)
    (acc : gmap string json) (k : string),
  k ∉ map col_name sch ->
  fold_left (fun row_obj cv => <[col_name (fst cv) := snd cv]> row_obj)
            (combine sch row) acc !! k
  = acc !! k.
Proof.
  induction sch as [|c sch IH]; intros [|v row] acc k Hk; simpl; try done.
  simpl in Hk. apply not_elem_of_cons in Hk as [Hne Hk].
  rewrite IH by done. by rewrite lookup_insert_ne.
Qed.

(** Property X4. With distinct column names, the row object holds under the name of
    the [i]-th column the [i]-th value of the row. *)
Theorem row_object_lookup (sch : list column) : forall (row : list json)
    (i : nat) (c : column) (v : json),
  NoDup (map col_name sch) ->
  sch !! i = Some c ->
  row !! i = Some v ->
  row_object sch row !! col_name c = Some v.
Proof.
  unfold row_object. generalize (∅ : gmap string json).
  induction sch as [|c0 sch IH]; intros acc [|v0 row] i c v Hnd Hc Hv;
    try done.
  simpl in Hnd. apply NoDup_cons in Hnd as [Hfresh Hnd].
  destruct i as [|i]; simpl in *.
  - injection Hc as ->. injection Hv as ->.
    rewrite row_object_fold_other by done. apply lookup_insert_eq.
  - by apply (IH _ row i).
Qed.

Lemma row_object_lookup_witness :
  row_object sample_schema short_row !! "day" = Some (JStr "2020-01-02").
Proof.
  apply (row_object_lookup sample_schema short_row 1
           {| col_name := "day"; col_type := "date" |} (JStr "2020-01-02")).
  - apply (bool_decide_unpack _). vm_compute. exact I.
  - reflexivity.
  - reflexivity.
Defined.

(** * Further properties of the client *)

(** ** The creation document *)

(** Property X5. Whatever the type of a schema column, the column of the creation
    document carries one of the five Power BI types. *)
Theorem new_column_type_is_known (c : column) :
  exists ty,
    new_column c = JObj [("name", JStr (col_name c)); ("dataType", JStr ty)]
    /\ ty ∈ power_bi_types.
Proof.
  exists (default "String" (fieldSetterMap !! col_type c)).
  split; [done|]. rewrite fieldSetterMap_table. unfold power_bi_type.
  repeat match goal with
         | |- context [String.eqb ?x ?known] => destruct (String.eqb x known)
         end; unfold power_bi_types; set_solver.
Qed.

(** ** Registering the formattable columns *)

Lemma elem_of_columns_of_type ty (sch : list column) k :
  k ∈ columns_of_type ty sch
  <-> exists c, c ∈ sch /\ col_name c = k /\ col_type c = ty.
Proof.
  unfold columns_of_type. rewrite list_elem_of_In, in_map_iff. split.
  - intros (c & <- & Hin). apply filter_In in Hin as [Hin Hty].
    exists c. rewrite list_elem_of_In. by apply String.eqb_eq in Hty.
  - intros (c & Hin & <- & <-). exists c. split; [done|].
    apply filter_In. rewrite <- list_elem_of_In. split; [done|].
    apply String.eqb_refl.
Qed.



(** Property X6. [register_formattable_columns] registers exactly the names of the
    columns typed date and of those typed boolean, and installs the
    transforming encoder exactly when the schema has such a column. *)
Theorem registered_columns (sch : list column) :
  let f := register_formattable_columns sch in
  (forall k, k ∈ columns_with_date f
             <-> exists c, c ∈ sch /\ col_name c = k /\ col_type c = "date")
  /\ (forall k, k ∈ columns_with_boolean f
                <-> exists c, c ∈ sch /\ col_name c = k
                              /\ col_type c = "boolean")
  /\ (json_filter f = json_dumps
      <-> forall c, c ∈ sch -> col_type c <> "date" /\ col_type c <> "boolean").
Proof.
  intros f.
  split; [intros k; apply (elem_of_columns_of_type "date")|].
  split; [intros k; apply (elem_of_columns_of_type "boolean")|].
  unfold f, register_formattable_columns. simpl.
  fold (columns_of_type "date" sch). fold (columns_of_type "boolean" sch).
  pose proof (elem_of_columns_of_type "date" sch) as Hd.
  pose proof (elem_of_columns_of_type "boolean" sch) as Hb.
  destruct (columns_of_type "date" sch) as [|d ds]; simpl.
  - destruct (columns_of_type "boolean" sch) as [|b bs]; simpl.
    + split; [|done]. intros _ c Hc. split; intros Hty.
      * assert (Hin : col_name c ∈ @nil string) by (apply Hd; eauto).
        by apply not_elem_of_nil in Hin.
      * assert (Hin : col_name c ∈ @nil string) by (apply Hb; eauto).
        by apply not_elem_of_nil in Hin.
    + split; [done|]. intros Hnone.
      destruct (proj1 (Hb b)) as (c & Hc & _ & Hty); [left|].
      by destruct (Hnone c Hc).
  - split; [done|]. intros Hnone.
    destruct (proj1 (Hd d)) as (c & Hc & _ & Hty); [left|].
    by destruct (Hnone c Hc).
Qed.


(** ** Classified errors, as the callers below meet them *)

Lemma assert_response_ok_raises r while_trying custom m :
  400 <= status_code r ->
  assert_response_ok r while_trying true custom m
  = Raise (Exception (classified_message r while_trying custom)) m.
Proof.
  intros Hge. unfold assert_response_ok.
  destruct (Z.geb_spec (status_code r) 400); [|lia].
  by rewrite get_error_message_classified.
Qed.

Lemma assert_response_ok_logs r while_trying custom m :
  400 <= status_code r ->
  assert_response_ok r while_trying false custom m
  = Ok tt (logged m ERROR (classified_message r while_trying custom)).
Proof.
  intros Hge. unfold assert_response_ok.
  destruct (Z.geb_spec (status_code r) 400); [|lia].
  by rewrite get_error_message_classified.
Qed.

(** ** Encoding and posting rows *)

Lemma dumps_row_plain (row : gmap string json) :
  dumps_row (CVal <$> row) = Val row.
Proof.
  unfold dumps_row. rewrite bool_decide_eq_true_2.
  - f_equal. apply map_eq. intros k.
    rewrite lookup_omap, lookup_fmap. by destruct (row !! k).
  - intros k c. rewrite lookup_fmap.
    destruct (row !! k); simpl; [|done]. intros [= <-]. by eexists.
Qed.







(** Property X9. An insertion through the client is fatal on an error status. For
    rows that hold JSON values only and the plain encoder, an answer of
    status 400 or more makes [post_table_row] raise the classified error,
    after the one request was sent. *)
Theorem post_table_row_raises_on_error_status
    net f (rows : list (gmap string json)) dsid table pbi_group_id m :
  json_filter f = json_dumps ->
  400 <= status_code (next_response net m) ->
  post_table_row net f (map (fmap CVal) rows) dsid table pbi_group_id m
  = Raise (Exception (classified_message (next_response net m) None None))
          (called m (table_rows_request pbi_group_id dsid table rows)).
Proof.
  intros Hf Hge. unfold post_table_row. rewrite Hf.
  assert (Hd : dumps (map (fmap CVal) rows) = Val rows).
  { induction rows as [|r rs IH]; simpl; [done|].
    rewrite dumps_row_plain. simpl. by rewrite IH. }
  rewrite Hd. unfold bind at 1. unfold lift, ret.
  unfold post, bind, send, next_response in *.
  by rewrite assert_response_ok_raises.
Qed.

Lemma post_table_row_raises_on_error_status_witness :
  post_table_row (fun _ => error_500)
    (register_formattable_columns plain_schema)
    (map (fmap CVal) [row_object plain_schema [JInt 1; JStr "ada"]])
    (JStr "ds-1") DEFAULT_PBI_TABLE None boot
  = Raise (Exception (classified_message error_500 None None))
          (called boot
             (table_rows_request None (JStr "ds-1") DEFAULT_PBI_TABLE
                [row_object plain_schema [JInt 1; JStr "ada"]])).
Proof.
  apply (post_table_row_raises_on_error_status (fun _ => error_500)
           (register_formattable_columns plain_schema)
           [row_object plain_schema [JInt 1; JStr "ada"]]
           (JStr "ds-1") DEFAULT_PBI_TABLE None boot).
  - reflexivity.
  - simpl. lia.
Defined.

(** Property X10. Clearing a table is best-effort. An answer of status 400 or more to
    [empty_dataset] is logged as an error and not raised: when the answer
    has a content type, and a body that parses if the type is JSON, the
    call returns, with one DELETE sent to the table-rows endpoint. *)
Theorem empty_dataset_logs_failures net dsid table pbi_group_id m ct :
  400 <= status_code (next_response net m) ->
  content_type (next_response net m) = Some ct ->
  (contains ct "application/json" = true ->
   is_Some (json_body (next_response net m))) ->
  exists answer,
    empty_dataset net dsid table pbi_group_id m
    = Ok answer
         (logged (called m (clear_request pbi_group_id dsid table)) ERROR
                 (classified_message (next_response net m) None None)).
Proof.
  intros Hge Hct Hbody.
  unfold empty_dataset, _delete, bind, send, next_response in *.
  rewrite assert_response_ok_logs by done.
  unfold answer, bind, lift, is_json_response. rewrite Hct.
  destruct (contains ct "application/json"); simpl.
  - destruct Hbody as [body Hb]; [done|]. unfold response_json.
    simpl. rewrite Hb. eexists. reflexivity.
  - eexists. reflexivity.
Qed.

Lemma empty_dataset_logs_failures_witness :
  exists answer,
    empty_dataset (fun _ => html_502) (JStr "ds-1") DEFAULT_PBI_TABLE None boot
    = Ok answer
         (logged (called boot (clear_request None (JStr "ds-1") DEFAULT_PBI_TABLE))
                 ERROR (classified_message html_502 None None)).
Proof.
  apply (empty_dataset_logs_failures (fun _ => html_502) (JStr "ds-1")
           DEFAULT_PBI_TABLE None boot "text/html").
  - simpl. lia.
  - reflexivity.
  - vm_compute. discriminate.
Defined.



(** ** Reading along a path *)



(** ** Listing and resolving *)

(** Property X12. [get_dataset_by_name] does not look at the status of the listing.
    An answer whose JSON body is an object without a [value] field, such as
    the body of an error, gives the empty list whatever its status; [open]
    without overwrite then leaves the job as if no dataset had that name. *)
Theorem listing_errors_read_as_no_dataset
    net name pbi_group_id capacity (sch : list column) m o :
  json_body (next_response net m) = Some (JObj o) ->
  assoc "value" o = None ->
  get_dataset_by_name net (Some name) pbi_group_id m
  = Ok [] (called m (list_request pbi_group_id))
  /\ exists m1,
      open net (settings_for name false capacity) sch m
      = Raise (SystemExit "Dataset creation error") m1
      /\ calls m1 = calls m ++ [list_request None].
Proof.
  intros Hbody Hvalue.
  assert (Hlist : forall gid,
             get_dataset_by_name net (Some name) gid m
             = Ok [] (called m (list_request gid))).
  { intros gid.
    unfold get_dataset_by_name, get_datasets, bind, send, lift, response_json,
      next_response in *. simpl. rewrite Hbody. simpl. by rewrite Hvalue. }
  split; [apply Hlist|].
  unfold open. cbn [pbi_overwrite pbi_dataset settings_for]. unfold bind at 1.
  rewrite Hlist. unfold bind, print, raise. simpl. eexists. by split.
Qed.

Lemma listing_errors_read_as_no_dataset_witness :
  get_dataset_by_name (fun _ => unauthorized_401) (Some "Sales") None boot
  = Ok [] (called boot (list_request None))
  /\ exists m1,
      open (fun _ => unauthorized_401) (settings_for "Sales" false 2)
           sample_schema boot
      = Raise (SystemExit "Dataset creation error") m1
      /\ calls m1 = [list_request None].
Proof.
  apply (listing_errors_read_as_no_dataset (fun _ => unauthorized_401) "Sales"
           None 2 sample_schema boot
           [("error", JObj [("message", JStr "token expired")])]).
  - reflexivity.
  - reflexivity.
Defined.

(** Property X13. A refused workspace listing. For a name other than the sentinel, an
    answer of status 400 or more to the listing of the workspaces makes
    [get_group_id_by_name] raise: with the access message for status 401,
    with the status and the message read from the body otherwise. *)
Theorem workspace_listing_refused net ws m :
  ws <> "My workspace" ->
  400 <= status_code (next_response net m) ->
  get_group_id_by_name net (Some ws) m
  = Raise (Exception
             (if status_code (next_response net m) =? 401 then Lit no_access
              else Fmt "Error {}: {}"
                       [AInt (status_code (next_response net m));
                        AJson (default (JStr (content (next_response net m)))
                                       (nested_message (next_response net m)))]))
          (called m groups_request).
Proof.
  intros Hws Hge. unfold get_group_id_by_name.
  destruct (String.eqb_spec ws "My workspace") as [|_]; [done|].
  unfold bind at 1. unfold get, bind, send, next_response in *.
  rewrite assert_response_ok_raises by done.
  unfold classified_message. simpl.
  destruct (Z.eqb_spec (status_code (net (length (calls m)))) 401) as [->|Hne].
  - by rewrite lookup_singleton_eq.
  - by rewrite lookup_singleton_ne.
Qed.

Lemma workspace_listing_refused_witness :
  get_group_id_by_name (fun _ => unauthorized_401) (Some "Finance") boot
  = Raise (Exception (Lit no_access)) (called boot groups_request).
Proof.
  apply (workspace_listing_refused (fun _ => unauthorized_401) "Finance" boot).
  - discriminate.
  - simpl. lia.
Defined.




(** ** Opening, when the service refuses *)

Section Refusals.

Variable net : nat -> response.

Lemma delete_dataset_refused id pbi_group_id m :
  400 <= status_code (next_response net m) ->
  delete_dataset net id pbi_group_id m
  = Raise (Exception
             (classified_message (next_response net m)
                (Some (Fmt "deleting {}" [AJson id])) None))
          (called m (delete_request pbi_group_id id)).
Proof.
  intros Hge. unfold delete_dataset, bind, send, next_response in *.
  by rewrite assert_response_ok_raises.
Qed.

(** The deletion loop stops at the first refusal. *)
Lemma delete_all_stops before id after : forall m,
  (forall k, (length (calls m) <= k < length (calls m) + length before)%nat ->
             status_code (net k) < 400) ->
  400 <= status_code (net (length (calls m) + length before)%nat) ->
  exists m1,
    for_each (before ++ id :: after)
      (fun dataset => delete_dataset net dataset None ;;; ret tt) m
    = Raise (Exception
               (classified_message
                  (net (length (calls m) + length before)%nat)
                  (Some (Fmt "deleting {}" [AJson id])) None)) m1
    /\ calls m1 = calls m ++ map (delete_request None) (before ++ [id]).
Proof.
  induction before as [|d before IH]; intros m Hacc Hge; simpl.
  - rewrite Nat.add_0_r in *. unfold bind at 1. unfold bind at 1.
    rewrite delete_dataset_refused by done. eexists. by split.
  - unfold bind at 1. unfold bind at 1.
    destruct (delete_dataset_accepted net d None m) as (m1 & Hd & Hc & _).
    { apply Hacc. simpl. lia. }
    rewrite Hd. unfold ret at 1.
    destruct (IH m1) as (m2 & Hrun & Hc2).
    { intros k Hk. apply Hacc. rewrite Hc, length_app in Hk. simpl in *. lia. }
    { rewrite Hc, length_app. simpl.
      replace (length (calls m) + 1 + length before)%nat
        with (length (calls m) + S (length before))%nat by lia. done. }
    exists m2. split.
    + rewrite Hrun. do 3 f_equal. rewrite Hc, length_app. simpl. f_equal. lia.
    + rewrite Hc2, Hc, <- app_assoc. reflexivity.
Qed.

End Refusals.

(** Property X15. An overwrite stops at the first deletion the service refuses. The
    datasets listed before it are deleted, the classified error of the
    refused deletion is raised, and neither a further deletion nor the
    creation is attempted. *)
Theorem open_stops_at_refused_deletion
    net name capacity (sch : list column) m body listing before id after :
  let first_call := length (calls m) in
  let refusal := net (first_call + 1 + length before)%nat in
  json_body (net first_call) = Some body ->
  py_get body "value" JNull = Val (JArr listing) ->
  Forall (fun d => is_Some (dataset_fields d)) listing ->
  ids_named name listing = before ++ id :: after ->
  (forall k, (first_call < k <= first_call + length before)%nat ->
             status_code (net k) < 400) ->
  400 <= status_code refusal ->
  exists m1,
    open net (settings_for name true capacity) sch m
    = Raise (Exception
               (classified_message refusal
                  (Some (Fmt "deleting {}" [AJson id])) None)) m1
    /\ calls m1
       = calls m ++ [list_request None]
         ++ map (delete_request None) (before ++ [id]).
Proof.
  intros first_call refusal Hbody Hvalue Hall Hids Hacc Hge.
  unfold open. cbn [pbi_overwrite pbi_dataset settings_for].
  unfold bind at 1. unfold print at 1. unfold bind at 1.
  rewrite (get_dataset_by_name_listing net name None _ body listing);
    [|exact Hbody|exact Hvalue|exact Hall].
  rewrite Hids. unfold bind at 1.
  destruct (delete_all_stops net before id after
              (called (printed m [Lit "[+] Looking for Power BI datasets with similar names..."])
                      (list_request None)))
    as (m1 & Hrun & Hc).
  { intros k Hk. apply Hacc. simpl in Hk. rewrite length_app in Hk.
    simpl in Hk. unfold first_call. lia. }
  { simpl. rewrite length_app. simpl. exact Hge. }
  unfold printed in Hrun at 1. rewrite Hrun.
  exists m1. split.
  - do 3 f_equal. simpl. rewrite length_app. reflexivity.
  - rewrite Hc. simpl. by rewrite <- app_assoc.
Qed.

Lemma open_stops_at_refused_deletion_witness :
  exists m1,
    open refusing_script (settings_for "Sales" true 2) sample_schema boot
    = Raise (Exception
               (classified_message not_found_404
                  (Some (Fmt "deleting {}" [AJson (JStr "ds-1")])) None)) m1
    /\ calls m1 = [list_request None; delete_request None (JStr "ds-1")].
Proof.
  apply (open_stops_at_refused_deletion refusing_script "Sales" 2
           sample_schema boot (JObj [("value", JArr sample_listing)])
           sample_listing [] (JStr "ds-1") [JStr "ds-4"]).
  - reflexivity.
  - reflexivity.
  - repeat constructor; eexists; reflexivity.
  - reflexivity.
  - intros k Hk. simpl in Hk. lia.
  - simpl. lia.
Defined.

(** Property X16. A creation answered without an id ends the job. When the deletions
    are accepted and the creation is answered below 400 with a JSON body
    that has no id, or a null one, [open] exits with "Dataset creation
    error" after the creation request, and binds no dataset. *)
Theorem open_exits_without_created_id
    net name capacity (sch : list column) m body listing created :
  let first_call := length (calls m) in
  let ids := ids_named name listing in
  let creation := net (first_call + length ids + 1)%nat in
  json_body (net first_call) = Some body ->
  py_get body "value" JNull = Val (JArr listing) ->
  Forall (fun d => is_Some (dataset_fields d)) listing ->
  (forall k, (first_call < k <= first_call + length ids)%nat ->
             status_code (net k) < 400) ->
  status_code creation < 400 ->
  is_json_response creation = Val true ->
  json_body creation = Some created ->
  py_get created "id" JNull = Val JNull ->
  exists m1,
    open net (settings_for name true capacity) sch m
    = Raise (SystemExit "Dataset creation error") m1
    /\ calls m1
       = calls m ++ [list_request None] ++ map (delete_request None) ids
         ++ [create_request None (Some name) pbi_table sch].
Proof.
  intros first_call ids creation Hbody Hvalue Hall Hdel Hst Hjson Hcreated Hid.
  unfold open. cbn [pbi_overwrite pbi_dataset settings_for].
  unfold bind at 1. unfold print at 1. unfold bind at 1.
  rewrite (get_dataset_by_name_listing net name None _ body listing);
    [|exact Hbody|exact Hvalue|exact Hall].
  fold ids. unfold bind at 1.
  destruct (delete_all_accepted net ids
              (called (printed m [Lit "[+] Looking for Power BI datasets with similar names..."])
                      (list_request None)))
    as (m1 & Hrun & Hc & _).
  { intros k Hk. apply Hdel. simpl in Hk. rewrite length_app in Hk.
    simpl in Hk. unfold first_call. lia. }
  unfold printed in Hrun at 1. rewrite Hrun.
  assert (Hnext : next_response net m1 = creation).
  { unfold next_response, creation. rewrite Hc. simpl.
    rewrite !length_app, length_map. simpl. f_equal. unfold first_call. lia. }
  unfold bind at 1.
  rewrite (create_dataset_returns_body net _ _ _ _ m1 created);
    rewrite ?Hnext; [|done..].
  unfold bind at 1, lift, reply_get. rewrite Hid. unfold ret at 1.
  unfold bind, print, raise. simpl. eexists. split; [reflexivity|].
  simpl. rewrite Hc. simpl. by rewrite <- !app_assoc.
Qed.

Lemma open_exits_without_created_id_witness :
  exists m1,
    open idless_script (settings_for "Sales" true 2) sample_schema boot
    = Raise (SystemExit "Dataset creation error") m1
    /\ calls m1
       = [ list_request None;
           delete_request None (JStr "ds-1");
           delete_request None (JStr "ds-4");
           create_request None (Some "Sales") pbi_table sample_schema ].
Proof.
  apply (open_exits_without_created_id idless_script "Sales" 2 sample_schema
           boot (JObj [("value", JArr sample_listing)]) sample_listing
           (JObj [("name", JStr "Sales")])).
  - reflexivity.
  - reflexivity.
  - repeat constructor; eexists; reflexivity.
  - intros [|[|[|k]]] Hk; simpl in *; lia.
  - simpl. lia.
  - reflexivity.
  - reflexivity.
  - reflexivity.
Defined.

(** ** Authentication *)

(** Property X17. A refused token exchange. An answer of status 400 or more to the
    token request makes [__init__] raise the classified error, which names
    the operation and carries the raw body; the token endpoint is the only
    one contacted and nothing is printed. *)
Theorem init_raises_on_refused_token net c m :
  400 <= status_code (next_response net m) ->
  init net c m
  = Raise (Exception
             (Fmt "Error {} while {}: {}"
                  [AInt (status_code (next_response net m));
                   ASub (Lit "retrieving access token");
                   AStr (content (next_response net m))]))
          (called m (token_request c)).
Proof.
  intros Hge. unfold init. unfold bind at 1.
  unfold generate_access_token, bind, send, next_response in *.
  by rewrite assert_response_ok_raises.
Qed.

Lemma init_raises_on_refused_token_witness :
  init (fun _ => unauthorized_401) sample_configuration boot
  = Raise (Exception
             (Fmt "Error {} while {}: {}"
                  [AInt 401; ASub (Lit "retrieving access token");
                   AStr "raw body of the 401"]))
          (called boot (token_request sample_configuration)).
Proof.
  apply (init_raises_on_refused_token (fun _ => unauthorized_401)
           sample_configuration boot).
  simpl. lia.
Defined.

(** Property X18. The token decides. When the token request is answered below 400
    with a JSON object, [__init__] keeps ["Bearer "] followed by the string
    under [access_token]; without that field, or with a null one, it prints
    the answer and exits with "Authentication error"; a value there that is
    no string raises [TypeError]. In each case the token request is the only
    request sent. *)
Theorem init_binds_token_or_exits net c m o :
  status_code (next_response net m) < 400 ->
  json_body (next_response net m) = Some (JObj o) ->
  init net c m
  = match assoc "access_token" o with
    | Some (JStr token) =>
        Ok {| session_settings := plugin_settings c;
              authorization := "Bearer " +:+ token |}
           (called m (token_request c))
    | None | Some JNull =>
        Raise (SystemExit "Authentication error")
              (printed (called m (token_request c))
                 [ Lit "ERROR [-] Error while retrieving your Power BI access token, please check your credentials.";
                   Lit "ERROR [-] Azure authentication API response:";
                   Fmt "{}" [AJson (JObj o)] ])
    | Some _ => Raise TypeError (called m (token_request c))
    end.
Proof.
  intros Hlt Hbody. unfold init. unfold bind at 1.
  unfold generate_access_token, bind, send, next_response in *.
  rewrite assert_response_ok_passes by done.
  unfold lift, response_json. rewrite Hbody. simpl.
  destruct (assoc "access_token" o) as [[]|]; try reflexivity;
    unfold print, raise, printed, called; simpl; by rewrite <- !app_assoc.
Qed.

Lemma init_binds_token_or_exits_witness :
  init (fun _ => token_response) sample_configuration boot
  = Ok {| session_settings := sample_settings true 2;
          authorization := "Bearer abc" |}
       (called boot (token_request sample_configuration))
  /\ exists m1,
      init (fun _ => ok_200) sample_configuration boot
      = Raise (SystemExit "Authentication error") m1.
Proof.
  split.
  - apply (init_binds_token_or_exits (fun _ => token_response)
             sample_configuration boot
             [("token_type", JStr "Bearer"); ("access_token", JStr "abc")]).
    + simpl. lia.
    + reflexivity.
  - eexists.
    apply (init_binds_token_or_exits (fun _ => ok_200) sample_configuration
             boot []).
    + simpl. lia.
    + reflexivity.
Defined.

(** ** Answers the client and the exporter cannot read *)



(** Property X20. [post] needs a Content-Type header. An answer below 400 that
    carries no content type makes [post] raise [AttributeError] after the
    request was sent, and with it [create_dataset_from_schema]. *)
Theorem post_needs_content_type
    net u d fail_on_errors pbi_dataset table pbi_group_id (sch : list column) m :
  status_code (next_response net m) < 400 ->
  content_type (next_response net m) = None ->
  post net u d fail_on_errors m
  = Raise AttributeError (called m {| method := POST; url := u; data := d |})
  /\ create_dataset_from_schema net pbi_dataset table pbi_group_id sch m
     = Raise AttributeError
             (called m (create_request pbi_group_id pbi_dataset table sch)).
Proof.
  intros Hlt Hct.
  assert (Hpost : forall u' d' f',
             post net u' d' f' m
             = Raise AttributeError
                     (called m {| method := POST; url := u'; data := d' |})).
  { intros u' d' f'. unfold post, bind, send, next_response in *.
    rewrite assert_response_ok_passes by done.
    unfold answer, bind, lift, is_json_response. by rewrite Hct. }
  split; [apply Hpost|]. unfold create_dataset_from_schema. apply Hpost.
Qed.

Lemma post_needs_content_type_witness :
  create_dataset_from_schema
    (fun _ => {| status_code := 201; content := EmptyString;
                 json_body := None; content_type := None |})
    (Some "Sales") DEFAULT_PBI_TABLE None sample_schema boot
  = Raise AttributeError
          (called boot (create_request None (Some "Sales") DEFAULT_PBI_TABLE
                          sample_schema)).
Proof.
  apply (post_needs_content_type
           (fun _ => {| status_code := 201; content := EmptyString;
                        json_body := None; content_type := None |})
           (Lit DATASETS_API) NoData true
           (Some "Sales") DEFAULT_PBI_TABLE None sample_schema boot).
  - simpl. lia.
  - reflexivity.
Defined.
